(** * Website Design Analyzer: scoring, palette and report pagination

    A shallow embedding of [app/services/scoring.py],
    [app/services/insights.py], [app/services/palette.py] and the
    screenshot pagination of [app/services/report.py].

    Conventions of the embedding.
    - Python [float] values are idealised as exact rationals ([Q]): every
      product, quotient and sum is the exact one.  [int(x)] is truncation
      toward zero ([py_int]) and [round(x)] is round-half-to-even
      ([py_round]).
    - A parsed document ([BeautifulSoup(html, 'html.parser')]) is a forest
      of [node]s; the parser itself is a parameter of the HTML analyzers.
    - Pillow, numpy and scikit-image primitives (resampling, colour-space
      conversion, quantisation, standard deviation, Sobel filter) are not
      re-implemented: an image is given by the arrays those primitives
      hand to the Python code.
    - A Python [dict] with string keys is a [gmap string _]; a missing key
      ([KeyError]) is [None]. *)

From Stdlib Require Import ZArith QArith Qround Qminmax Lia Lqa List Ascii String.
From stdpp Require Import base option list gmap strings.

Local Open Scope string_scope.
Local Open Scope list_scope.
Local Open Scope Z_scope.
Set Warnings "-register-all".

(** ** Numbers *)

Module Num.

(** [int(x)] on a float: truncation toward zero. *)
Definition py_int (x : Q) : Z := Z.quot (Qnum x) (Z.pos (Qden x)).

(** [round(x)] with one argument: nearest integer, ties to the even one. *)
Definition py_round (x : Q) : Z :=
  let f := Qfloor x in
  match Qcompare (x - inject_Z f) (1 # 2) with
  | Lt => f
  | Gt => f + 1
  | Eq => if Z.even f then f else f + 1
  end.

(** [x < y] as a boolean. *)
Definition Qltb (x y : Q) : bool := negb (Qle_bool y x).

(** [max(lo, min(hi, x))]. *)
Definition clamp (lo hi x : Q) : Q := Qmax lo (Qmin hi x).

End Num.

(** ** Strings: the [str] methods used by the analyzers *)

Module Str.

(** [c.lower()] on one ASCII character; other bytes are unchanged. *)
Definition lower_ascii (c : ascii) : ascii :=
  let n := nat_of_ascii c in
  if (Nat.leb 65 n && Nat.leb n 90)%bool then ascii_of_nat (n + 32) else c.

(** [s.lower()]. *)
Fixpoint lower (s : string) : string :=
  match s with
  | EmptyString => EmptyString
  | String c s' => String (lower_ascii c) (lower s')
  end.

(** [s.startswith(p)]. *)
Fixpoint startswith (p s : string) : bool :=
  match p, s with
  | EmptyString, _ => true
  | String a p', String b s' => (Ascii.eqb a b && startswith p' s')%bool
  | String _ _, EmptyString => false
  end.

(** [sub in s]. *)
Fixpoint contains (sub s : string) : bool :=
  (startswith sub s ||
   match s with
   | EmptyString => false
   | String _ s' => contains sub s'
   end)%bool.

(** [s.count(sub)] for a non-empty [sub]: occurrences are counted from the
    left and do not overlap; [skip] is the number of characters of the last
    match still to be passed over. *)
Fixpoint count_from (sub s : string) (skip : nat) : nat :=
  match s with
  | EmptyString => O
  | String _ s' =>
      match skip with
      | S k => count_from sub s' k
      | O => if startswith sub s
             then S (count_from sub s' (Nat.pred (String.length sub)))
             else count_from sub s' O
      end
  end.

Definition count (sub s : string) : nat := count_from sub s O.

(** [sep.join(parts)]. *)
Fixpoint join (sep : string) (parts : list string) : string :=
  match parts with
  | [] => EmptyString
  | [p] => p
  | p :: rest => (p ++ sep ++ join sep rest)%string
  end.

End Str.

(** ** Parsed documents *)

Module Dom.

(** A BeautifulSoup tree: text nodes and elements.  [attrs] is the
    element's attribute dict; the value of [class] is the element's class
    list joined by single spaces. *)
Inductive node : Type :=
| Text (s : string)
| Tag (name : string) (attrs : gmap string string) (children : list node).

Definition soup : Type := list node.

Definition name_of (n : node) : string :=
  match n with Text _ => "" | Tag nm _ _ => nm end.

Definition attrs_of (n : node) : gmap string string :=
  match n with Text _ => ∅ | Tag _ a _ => a end.

(** [el.get(key)]. *)
Definition get (key : string) (n : node) : option string := attrs_of n !! key.

(** Truth value of [el.get(key)]: present and not the empty string. *)
Definition get_truthy (key : string) (n : node) : bool :=
  match get key n with
  | Some v => negb (String.eqb v "")
  | None => false
  end.

(** [key in el.attrs]. *)
Definition has_attr (key : string) (n : node) : bool :=
  match get key n with Some _ => true | None => false end.

(** CSS [[key*="sub"]]: the attribute is present and its value contains
    [sub]. *)
Definition attr_contains (key sub : string) (n : node) : bool :=
  match get key n with
  | Some v => Str.contains sub v
  | None => false
  end.

(** The element itself followed by its descendant elements, in document
    order. *)
Fixpoint descend (n : node) : list node :=
  match n with
  | Text _ => []
  | Tag _ _ cs => n :: flat_map descend cs
  end.

(** [soup.find_all(True)]: every element, in document order. *)
Definition find_all (s : soup) : list node := flat_map descend s.

(** [soup.find_all(p)] / [soup.select(p)] for a predicate on elements. *)
Definition find_all_by (p : node -> bool) (s : soup) : list node :=
  List.filter p (find_all s).

(** [soup.find_all(name)]. *)
Definition find_all_name (nm : string) (s : soup) : list node :=
  find_all_by (fun n => String.eqb (name_of n) nm) s.

(** [bool(soup.find(name))]. *)
Definition find_name (nm : string) (s : soup) : bool :=
  existsb (fun n => String.eqb (name_of n) nm) (find_all s).

(** [el.get_text()]: the concatenation of the text below the node. *)
Fixpoint get_text (n : node) : string :=
  match n with
  | Text s => s
  | Tag _ _ cs => fold_right (fun c acc => (get_text c ++ acc)%string) "" cs
  end.

(** A selector that looks at the name and the attributes of an element
    only, not at what is below it. *)
Definition shallow (P : node -> bool) : Prop :=
  forall nm a cs cs', P (Tag nm a cs) = P (Tag nm a cs').

(** Tag names matched by [re.compile('^h[1-6]$')]. *)
Definition is_heading_name (nm : string) : bool :=
  match nm with
  | String "h" (String d EmptyString) =>
      let k := nat_of_ascii d in (Nat.leb 49 k && Nat.leb k 54)%bool
  | _ => false
  end.

End Dom.

(** ** [app/services/scoring.py] *)

Module Scoring.
Import Num Dom.

(** [len(l)]. *)
Definition len {A : Type} (l : list A) : Z := Z.of_nat (length l).

(** [len(soup.find_all(p))] / [len(soup.select(p))]. *)
Definition count_of (P : node -> bool) (s : soup) : Z := len (find_all_by P s).

(** What [analyze_image_colors] reads from the image once Pillow and numpy
    have sampled it on the 256-pixel-wide grid:
    [lum_std] is [float(np.std(lum))], the standard deviation of the
    relative luminance; [hue] is the flattened channel [hsv[...,0]], one
    byte per pixel.  The array [arr] keeps three channels per pixel. *)
Record sampled_image : Type := {
  lum_std : Q;
  hue : list Z
}.

(** [arr.size]: the number of array elements, three per pixel. *)
Definition arr_size (img : sampled_image) : Z := 3 * len (hue img).

(** The bin of one hue byte in [np.histogram(_, bins=12, range=(0,255))]:
    twelve bins of equal width, the last one closed on the right. *)
Definition hue_bin (h : Z) : Z := if h =? 255 then 11 else (h * 12) / 255.

Definition in_range (h : Z) : bool := (0 <=? h) && (h <=? 255).

(** [np.histogram(hsv[...,0], bins=12, range=(0,255))[0]]. *)
Definition hue_bins (img : sampled_image) : list Z :=
  List.map
    (fun i => len (List.filter (fun h => in_range h && (hue_bin h =? Z.of_nat i)) (hue img)))
    (seq 0 12).

Definition analyze_image_colors (img : sampled_image) : Q * Q :=
  let contrast := lum_std img in
  let hue_bins := hue_bins img in
  let diversity :=
    (inject_Z (len (List.filter
                      (fun n => Qltb (inject_Z (arr_size img) * 0.0005) (inject_Z n))
                      hue_bins)) / 12)%Q in
  (contrast, diversity).

Record typo_meta : Type := { headings : Z; has_h1 : bool; has_h2 : bool }.
Record layout_meta : Type := { grids : Z; sections : Z; paragraphs : Z }.
Record resp_meta : Type := { viewport : bool; mq_classes : Z }.
Record a11y_meta : Type := { imgs : Z; with_alt : Z; aria_or_role : Z; labels : Z }.
Record color_meta : Type := { contrast_sd : Q; hue_diversity : Q }.

Record Meta : Type := {
  color : color_meta;
  typography : typo_meta;
  layout : layout_meta;
  responsive : resp_meta;
  accessibility : a11y_meta
}.

(** CSS [[style*="font-size"], [class*="text-"]]. *)
Definition sel_inline_size (n : node) : bool :=
  attr_contains "style" "font-size" n || attr_contains "class" "text-" n.

(** CSS [[class*="grid"], [class*="flex"]]. *)
Definition sel_grid_flex (n : node) : bool :=
  attr_contains "class" "grid" n || attr_contains "class" "flex" n.

(** CSS [[aria-label], [role]]. *)
Definition sel_aria_role (n : node) : bool :=
  has_attr "aria-label" n || has_attr "role" n.

Definition section_names : list string :=
  ["section"; "article"; "main"; "nav"; "aside"; "header"; "footer"].

Definition is_section (n : node) : bool :=
  existsb (String.eqb (name_of n)) section_names.

Section Analyzers.

(** [BeautifulSoup(html, 'html.parser')]. *)
Variable BeautifulSoup : string -> soup.

Definition analyze_typography (html : string) : Q * typo_meta :=
  let soup := BeautifulSoup html in
  let headings := len (find_all_by (fun n => is_heading_name (name_of n)) soup) in
  let h1 := find_name "h1" soup in
  let h2 := find_name "h2" soup in
  let inline_sizes := len (find_all_by sel_inline_size soup) in
  let score := 50%Q in
  let score := (score + (if h1 then 10 else -10))%Q in
  let score := (score + (if h2 then 8 else 0))%Q in
  let score := (score + Qmin 20 (inject_Z (headings * 3)))%Q in
  let score := (score + Qmin 20 (inject_Z inline_sizes * 0.5))%Q in
  (Qmax 0 (Qmin 100 score),
   {| headings := headings; has_h1 := h1; has_h2 := h2 |}).

Definition analyze_layout (html : string) : Z * layout_meta :=
  let soup := BeautifulSoup html in
  let grids := len (find_all_by sel_grid_flex soup) in
  let sections := len (find_all_by is_section soup) in
  let paragraphs := len (find_all_name "p" soup) in
  let score := 40 + Z.min 30 (grids * 2) + Z.min 30 (sections * 3) in
  let score := Z.max 0 (Z.min 100 score) in
  (score, {| grids := grids; sections := sections; paragraphs := paragraphs |}).

Definition analyze_responsive (html : string) : Q * resp_meta :=
  let viewport := Str.contains "viewport" (Str.lower html) in
  let md_classes := Z.of_nat (Str.count "md:" html) + Z.of_nat (Str.count "@media" html) in
  let score := (50 + (if viewport then 25 else -10)
                + Qmin 35 (inject_Z md_classes * 0.5))%Q in
  let score := Qmax 0 (Qmin 100 score) in
  (score, {| viewport := viewport; mq_classes := md_classes |}).

Definition analyze_accessibility (html : string) : Z * a11y_meta :=
  let soup := BeautifulSoup html in
  let alts := find_all_name "img" soup in
  let imgs := len alts in
  let with_alt := len (List.filter (get_truthy "alt") alts) in
  let aria := len (find_all_by sel_aria_role soup) in
  let labels := len (find_all_name "label" soup) in
  let score := (40 + Qmin 30 (inject_Z with_alt / inject_Z (Z.max 1 imgs) * 30)
                + inject_Z (Z.min 30 (aria + labels)))%Q in
  (Z.max 0 (Z.min 100 (py_int score)),
   {| imgs := imgs; with_alt := with_alt; aria_or_role := aria; labels := labels |}).

(** The keys of the [breakdown] dict, in insertion order. *)
Definition breakdown_keys : list string :=
  ["Typography"; "Color & Contrast"; "Layout & Structure"; "Responsive"; "Accessibility"].

(** [sum(breakdown[k]*weights[k] for k in keys)], started from [acc]. *)
Fixpoint weighted_sum (breakdown weights : gmap string Q) (keys : list string)
    (acc : Q) : option Q :=
  match keys with
  | [] => Some acc
  | k :: rest =>
      b ← breakdown !! k;
      w ← weights !! k;
      weighted_sum breakdown weights rest (acc + b * w)%Q
  end.

Definition make_scores (pil_image : sampled_image) (html : string)
    (weights : gmap string Q) : option (Z * gmap string Q * Meta) :=
  let '(contrast, diversity) := analyze_image_colors pil_image in
  let color_score := py_int (Qmin 100 (Qmax 0 (contrast * 180 + diversity * 40)))%Q in
  let '(typo_score, typo_meta) := analyze_typography html in
  let '(layout_score, layout_meta) := analyze_layout html in
  let '(resp_score, resp_meta) := analyze_responsive html in
  let '(a11y_score, a11y_meta) := analyze_accessibility html in
  let breakdown : gmap string Q :=
    <["Accessibility" := inject_Z a11y_score]>
      (<["Responsive" := resp_score]>
         (<["Layout & Structure" := inject_Z layout_score]>
            (<["Color & Contrast" := inject_Z color_score]>
               (<["Typography" := typo_score]> ∅)))) in
  total ← weighted_sum breakdown weights breakdown_keys 0%Q;
  let overall := py_int total in
  let meta :=
    {| color := {| contrast_sd := contrast; hue_diversity := diversity |};
       typography := typo_meta;
       layout := layout_meta;
       responsive := resp_meta;
       accessibility := a11y_meta |} in
  Some (overall, breakdown, meta).

End Analyzers.

Definition tip_typography : string :=
  "Improve typographic hierarchy and legibility (ensure clear H1/H2, adequate font sizes, and line-height).".
Definition tip_layout : string :=
  "Optimize whitespace and layout structure; use semantic sections and consistent spacing.".
Definition tip_color : string :=
  "Increase color contrast and reduce overly similar hues to enhance readability.".
Definition tip_responsive : string :=
  "Add or refine responsive breakpoints and viewport meta for small screens.".
Definition tip_accessibility : string :=
  "Add ARIA labels, ensure alt text on images, and improve keyboard navigation focus states.".
Definition tip_great : string :=
  "Great job! Minor polish only: audit interactive focus styles and motion preferences.".

(** The five category tips, in the order in which [recommendations]
    examines the categories. *)
Definition category_tips : list string :=
  [tip_typography; tip_layout; tip_color; tip_responsive; tip_accessibility].

(** [tips.append(tip)] when [score < limit]. *)
Definition append_if_below (score limit : Q) (tip : string) (tips : list string) : list string :=
  if Qltb score limit then tips ++ [tip] else tips.

Definition recommendations (breakdown : gmap string Q) (meta : Meta) : option (list string) :=
  let tips := [] in
  t ← breakdown !! "Typography";
  let tips := append_if_below t 80 tip_typography tips in
  l ← breakdown !! "Layout & Structure";
  let tips := append_if_below l 80 tip_layout tips in
  c ← breakdown !! "Color & Contrast";
  let tips := append_if_below c 80 tip_color tips in
  r ← breakdown !! "Responsive";
  let tips := append_if_below r 90 tip_responsive tips in
  a ← breakdown !! "Accessibility";
  let tips := append_if_below a 85 tip_accessibility tips in
  let tips := match tips with [] => tips ++ [tip_great] | _ => tips end in
  Some tips.

(** The weights of [app/config.py]. *)
Definition WEIGHTS : gmap string Q :=
  <["Accessibility" := 0.15%Q]>
    (<["Responsive" := 0.20%Q]>
       (<["Layout & Structure" := 0.20%Q]>
          (<["Color & Contrast" := 0.20%Q]>
             (<["Typography" := 0.25%Q]> ∅)))).

End Scoring.

(** ** [app/services/insights.py]: the diagnostic variants *)

Module Insights.
Import Num Dom Scoring.

Record responsive_info : Type := {
  viewport : bool;
  media_queries : Z;
  tw : gmap string Z;
  notes : string
}.

Record accessibility_info : Type := {
  images_total : Z;
  images_without_alt : Z;
  aria_attrs : Z;
  roles : Z;
  labels : Z
}.

(** The line feed used by ["\n".join(...)]. *)
Definition newline : string := String (ascii_of_nat 10) EmptyString.

(** [" ".join(" ".join(el.get("class", [])) for el in soup.find_all(True))]. *)
Definition class_text (s : soup) : string :=
  Str.join " " (List.map (fun el => default "" (get "class" el)) (find_all s)).

(** [soup.find("meta", attrs={"name": "viewport"})]. *)
Definition is_viewport_meta (n : node) : bool :=
  String.eqb (name_of n) "meta" &&
  match get "name" n with Some v => String.eqb v "viewport" | None => false end.

(** The attribute names of one element that start with [aria-] once
    lower-cased. *)
Definition aria_names (n : node) : list string :=
  List.filter (fun a => Str.startswith "aria-" (Str.lower a))
    (List.map fst (map_to_list (attrs_of n))).

Section Analyzers.

Variable BeautifulSoup : string -> soup.

Definition analyze_responsive (html : string) : responsive_info :=
  let soup := BeautifulSoup html in
  let has_viewport := existsb is_viewport_meta (find_all soup) in
  let styles := Str.join newline (List.map get_text (find_all_name "style" soup)) in
  let media_q := Z.of_nat (Str.count "@media" styles) in
  let classes := class_text soup in
  let tw_counts : gmap string Z :=
    <["2xl" := Z.of_nat (Str.count "2xl:" classes)]>
      (<["xl" := Z.of_nat (Str.count "xl:" classes)]>
         (<["lg" := Z.of_nat (Str.count "lg:" classes)]>
            (<["md" := Z.of_nat (Str.count "md:" classes)]>
               (<["sm" := Z.of_nat (Str.count "sm:" classes)]> ∅)))) in
  let notes := if has_viewport then "Has viewport meta" else "Missing viewport meta" in
  {| viewport := has_viewport; media_queries := media_q; tw := tw_counts; notes := notes |}.

Definition analyze_accessibility (html : string) : accessibility_info :=
  let soup := BeautifulSoup html in
  let imgs := find_all_name "img" soup in
  let total_imgs := len imgs in
  let no_alt := len (List.filter (fun i => negb (get_truthy "alt" i)) imgs) in
  let aria := len (flat_map aria_names (find_all soup)) in
  let roles := len (find_all_by (has_attr "role") soup) in
  let labels := len (find_all_name "label" soup) in
  {| images_total := total_imgs; images_without_alt := no_alt;
     aria_attrs := aria; roles := roles; labels := labels |}.

End Analyzers.

End Insights.

(** ** [app/services/palette.py] *)

Module Palette.
Import Num.

(** An RGB tuple. *)
Definition pixel : Type := (Z * Z * Z)%type.

(** A palette item, the dict [{"hex": _, "pct": _, "rgb": _}]. *)
Record entry : Type := { hex : string; pct : Q; rgb : pixel }.

Definition hex_digit (d : Z) : ascii :=
  if d <? 10 then ascii_of_nat (48 + Z.to_nat d) else ascii_of_nat (55 + Z.to_nat d).

(** The upper-case hexadecimal digits of a non-negative [n], most
    significant first, in front of [acc]. *)
Fixpoint hex_digits (fuel : nat) (n : Z) (acc : string) : string :=
  match fuel with
  | O => acc
  | S f =>
      let acc' := String (hex_digit (n mod 16)) acc in
      if n <? 16 then acc' else hex_digits f (n / 16) acc'
  end.

(** ["{:02X}".format(n)] for a colour component. *)
Definition fmt_02X (n : Z) : string :=
  let s := hex_digits (S (Z.to_nat (Z.log2 n))) n EmptyString in
  if Nat.ltb (String.length s) 2 then String "0" s else s.

Definition _rgb_to_hex (t : pixel) : string :=
  let '(r, g, b) := t in
  (String "#" (fmt_02X r ++ fmt_02X g ++ fmt_02X b))%string.

(** A [collections.Counter] over pixels: the keys in first-seen order, each
    with its count. *)
Definition counter : Type := list (pixel * Z).

Fixpoint counter_incr (k : pixel) (c : counter) : counter :=
  match c with
  | [] => [(k, 1)]
  | (k', n) :: rest =>
      if bool_decide (k = k') then (k', n + 1) :: rest
      else (k', n) :: counter_incr k rest
  end.

(** [Counter(pixels)]. *)
Definition Counter (pixels : list pixel) : counter :=
  fold_left (fun c k => counter_incr k c) pixels [].

(** Insertion into a list sorted by decreasing count; an item goes in front
    of the items it ties with, so that sorting from the right is stable. *)
Fixpoint insert_by_count (x : pixel * Z) (l : counter) : counter :=
  match l with
  | [] => [x]
  | y :: rest =>
      if snd y <=? snd x then x :: l else y :: insert_by_count x rest
  end.

(** [cnt.most_common(n)]: decreasing count, ties in first-seen order. *)
Definition most_common (n : nat) (cnt : counter) : counter :=
  firstn n (fold_right insert_by_count [] cnt).

(** [round(x, 2)]. *)
Definition round2 (x : Q) : Q := (inject_Z (py_round (x * 100)) / 100)%Q.

Definition max3 (a b c : Q) : Q := Qmax (Qmax a b) c.
Definition min3 (a b c : Q) : Q := Qmin (Qmin a b) c.

Definition channel (c : Z) : Q := (inject_Z c / 255)%Q.

Definition eps : Q := 1 # 100000000.

(** The mask of [_top_saturated]: [(s >= sat_thr) & (v >= val_min)] with
    [s = (v - minc + 1e-8) / (v + 1e-8)]. *)
Definition saturated_mask (sat_thr val_min : Q) (p : pixel) : bool :=
  let '(r, g, b) := p in
  let v := max3 (channel r) (channel g) (channel b) in
  let minc := min3 (channel r) (channel g) (channel b) in
  let diff := (v - minc + eps)%Q in
  let s := (diff / (v + eps))%Q in
  Qle_bool sat_thr s && Qle_bool val_min v.

(** The mask [good] of [_edge_accent_colors], with
    [s = (v - minc) / (v + 1e-8)]. *)
Definition edge_good (sat_thr val_min : Q) (p : pixel) : bool :=
  let '(r, g, b) := p in
  let v := max3 (channel r) (channel g) (channel b) in
  let minc := min3 (channel r) (channel g) (channel b) in
  let s := ((v - minc) / (v + eps))%Q in
  Qle_bool sat_thr s && Qle_bool val_min v.

(** The loop shared by the two accent passes:
    [for rgb, _ in items: out.append(...); if len(out) >= k: break]. *)
Fixpoint collect (k : Z) (items : counter) (out : list entry) : list entry :=
  match items with
  | [] => out
  | (c, _) :: rest =>
      let out := out ++ [{| hex := _rgb_to_hex c; pct := 0; rgb := c |}] in
      if k <=? Z.of_nat (length out) then out else collect k rest out
  end.

(** [_top_saturated] on the pixels [arr] of the image downscaled to at most
    600 pixels a side. *)
Definition _top_saturated (arr : list pixel) (k : Z) (sat_thr val_min : Q) : list entry :=
  let rgbs := List.filter (saturated_mask sat_thr val_min) arr in
  match rgbs with
  | [] => []
  | _ => collect k (most_common 50 (Counter rgbs)) []
  end.

(** [_edge_accent_colors] on [edge_rgbs = arr[mask_edge]], the pixels on the
    strongest Sobel edges; [None] when scikit-image is not installed
    ([filters is None]). *)
Definition _edge_accent_colors (edge_rgbs : option (list pixel)) (k : Z)
    (sat_thr val_min : Q) : list entry :=
  match edge_rgbs with
  | None => []
  | Some edge_rgbs =>
      match edge_rgbs with
      | [] => []
      | _ =>
          let pick := List.filter (edge_good sat_thr val_min) edge_rgbs in
          match pick with
          | [] => []
          | _ => collect k (most_common 50 (Counter pick)) []
          end
      end
  end.

(** What [extract_palette] reads from the image through Pillow, numpy and
    scikit-image: [quantized n] is [list(pal.getdata())] for [colors=n];
    [saturation_base] holds the pixels of the copy downscaled for
    [_top_saturated]; [edge_rgbs] holds the pixels selected by the Sobel
    threshold, if the filter is available. *)
Record raster : Type := {
  quantized : nat -> list pixel;
  saturation_base : list pixel;
  edge_rgbs : option (list pixel)
}.

(** The dominant pass: the loop over [cnt.most_common(max_colors)]. *)
Fixpoint dominant_loop (items : counter) (total : Z) (min_percent : Q)
    (dominant : list entry) : list entry :=
  match items with
  | [] => dominant
  | (c, n) :: rest =>
      let pct := (inject_Z n / inject_Z total * 100)%Q in
      let dominant :=
        if Qle_bool min_percent pct
        then dominant ++ [{| hex := _rgb_to_hex c; pct := round2 pct; rgb := c |}]
        else dominant in
      dominant_loop rest total min_percent dominant
  end.

(** The merge loop: items whose [hex] was not seen yet are appended. *)
Fixpoint merge_loop (items : list entry) (seen : gset string) (out : list entry)
    : list entry :=
  match items with
  | [] => out
  | item :: rest =>
      if bool_decide (hex item ∈ seen) then merge_loop rest seen out
      else merge_loop rest ({[hex item]} ∪ seen) (out ++ [item])
  end.

(** The tests on the [hex] of an item used to describe the merge: another
    [hex] than [h], and a [hex] that is not in [seen]. *)
Definition other_hex (h : string) (y : entry) : bool := negb (String.eqb (hex y) h).
Definition unseen (seen : gset string) (y : entry) : bool := bool_decide (hex y ∉ seen).

(** The three passes of [extract_palette], with the arguments it gives
    them. *)
Definition dominant_pass (pil_image : raster) (max_colors : nat) (min_percent : Q)
    : list entry :=
  let pixels := quantized pil_image max_colors in
  let total := Z.of_nat (length pixels) in
  let cnt := Counter pixels in
  dominant_loop (most_common max_colors cnt) total min_percent [].

Definition saturated_pass (pil_image : raster) : list entry :=
  _top_saturated (saturation_base pil_image) 8 0.48 0.24.

Definition edge_pass (pil_image : raster) : list entry :=
  _edge_accent_colors (edge_rgbs pil_image) 10 0.42 0.22.

Definition extract_palette (pil_image : raster) (max_colors : nat) (min_percent : Q)
    : list entry :=
  let pixels := quantized pil_image max_colors in
  let cnt := Counter pixels in
  let dominant := dominant_pass pil_image max_colors min_percent in
  let sat := saturated_pass pil_image in
  let edge := edge_pass pil_image in
  let out := merge_loop (dominant ++ sat ++ edge) ∅ [] in
  let out :=
    match out, cnt with
    | [], (c, n) :: _ => [{| hex := _rgb_to_hex c; pct := 100; rgb := c |}]
    | _, _ => out
    end in
  firstn 28 out.

End Palette.

(** ** [app/services/report.py]: page geometry and screenshot slicing *)

Module Report.
Import Num.

(** [reportlab.lib.units.mm]: [inch = 72.0], [cm = inch/2.54],
    [mm = cm*0.1]. *)
Definition mm : Q := (72 / 2.54 * 0.1)%Q.

(** [PAGE_W, PAGE_H = A4], that is [(210*mm, 297*mm)]. *)
Definition PAGE_W : Q := (210 * mm)%Q.
Definition PAGE_H : Q := (297 * mm)%Q.
Definition MARGIN : Q := (14 * mm)%Q.
Definition LINE_H : Q := (6 * mm)%Q.

Definition ORDER : list string :=
  ["Typography"; "Color & Contrast"; "Layout & Structure"; "Responsive"; "Accessibility"].

Definition report_title : string := "Website Design Analyzer — Report".

(** One row of the score table: the metric, [int(round(score))] and the
    label that follows it. *)
Record row : Type := { metric : string; shown : Z; suffix : string }.

(** What is sent to the canvas, in order.  [Header] stands for the calls of
    [_draw_header], [KV] for those of [_kv], [DrawImage] for
    [_draw_img_buf] on an image resized to [px_w] x [px_h] pixels;
    [Recommendations] stands for the call of [_recommendations], whose
    line wrapping depends on font metrics. *)
Inductive op : Type :=
| Header (title when_text : string)
| DrawString (x y : Q) (text : string)
| KV (x y : Q) (k v : string)
| DrawImage (px_w px_h : Z) (x y w h : Q)
| ShowPage
| TableScores (x y_top : Q) (rows : list row) (w : Q)
| LineChart (x y_top w h : Q) (series : list (string * Q))
| Recommendations (tips : list string) (y_start : Q).

Definition canvas : Type := list op.

Section Sliced.

(** [im.size] of the opened screenshot, and the arguments of the call. *)
Variables (img_w img_h : Z) (top_free_px : Q) (first_page : bool).

Definition usable_w : Q := (PAGE_W - 2 * MARGIN)%Q.
Definition usable_h : Q := (PAGE_H - 2 * MARGIN)%Q.

Definition scale : Q := (usable_w / inject_Z img_w)%Q.
Definition scaled_w : Q := usable_w.
Definition scaled_h : Q := (inject_Z img_h * scale)%Q.

Definition first_page_room : Q :=
  if first_page then (usable_h - top_free_px)%Q else usable_h.
Definition y_cursor : Q := (PAGE_H - MARGIN - top_free_px)%Q.

Definition slice_h_pts : Q := Qmax 1 (if first_page then first_page_room else usable_h).
Definition slice_h_px : Z := Z.max 1 (py_int (slice_h_pts / scale)).

(** The [while y_px < img_h] loop; [fuel] bounds the number of turns. *)
Fixpoint slice_loop (fuel : nat) (y_px : Z) (first : bool) (c : canvas) : option canvas :=
  if y_px <? img_h then
    match fuel with
    | O => None
    | S fuel' =>
        let h_px := Z.min slice_h_px (img_h - y_px) in
        let chunk_h_pts := (inject_Z h_px * scale)%Q in
        let c :=
          if first then
            c ++ [DrawImage (py_int scaled_w) (py_int chunk_h_pts)
                    MARGIN (y_cursor - chunk_h_pts) scaled_w chunk_h_pts]
          else
            c ++ [ShowPage; Header report_title "";
                  DrawImage (py_int scaled_w) (py_int chunk_h_pts)
                    MARGIN (PAGE_H - MARGIN - chunk_h_pts) scaled_w chunk_h_pts] in
        slice_loop fuel' (y_px + h_px) false c
    end
  else Some c.

Definition _draw_screenshot_sliced (c : canvas) : option canvas :=
  if Qle_bool scaled_h (first_page_room + 0.1) then
    Some (c ++ [DrawImage (py_int scaled_w) (py_int scaled_h)
                  MARGIN (y_cursor - scaled_h) scaled_w scaled_h])
  else
    slice_loop (Z.to_nat img_h) 0 true c.

End Sliced.

(** The image drawn by the loop for the slice that starts at row [y_px]. *)
Definition slice_image (img_w img_h : Z) (top_free_px : Q) (first_page : bool)
    (y_px : Z) (first : bool) : op :=
  let h_px := Z.min (slice_h_px img_w top_free_px first_page) (img_h - y_px) in
  let chunk_h_pts := (inject_Z h_px * scale img_w)%Q in
  DrawImage (py_int scaled_w) (py_int chunk_h_pts) MARGIN
    ((if first then y_cursor top_free_px else PAGE_H - MARGIN)%Q - chunk_h_pts)%Q
    scaled_w chunk_h_pts.

(** The space used on page 1 above the screenshot, [top_used] in
    [build_pdf]. *)
Definition top_used : Q :=
  (PAGE_H - (PAGE_H - MARGIN - 18 * mm - LINE_H - 8) - MARGIN)%Q.

(** [breakdown.get(k)] / [k in breakdown] on a dict kept in insertion
    order. *)
Fixpoint lookup_item (k : string) (breakdown : list (string * Q)) : option Q :=
  match breakdown with
  | [] => None
  | (k', v) :: rest => if String.eqb k k' then Some v else lookup_item k rest
  end.

Definition ordered_rows (breakdown : list (string * Q)) : list row :=
  flat_map
    (fun k => match lookup_item k breakdown with
              | Some v => [{| metric := k; shown := py_round v; suffix := "/100" |}]
              | None => []
              end) ORDER.

Definition extra_rows (breakdown : list (string * Q)) : list row :=
  flat_map
    (fun kv => if existsb (String.eqb (fst kv)) ORDER then []
               else [{| metric := fst kv; shown := py_round (snd kv); suffix := "/100" |}])
    breakdown.

Definition chart_series (breakdown : list (string * Q)) : list (string * Q) :=
  flat_map
    (fun k => match lookup_item k breakdown with
              | Some v => [(k, v)]
              | None => []
              end) ORDER.

Definition or_dash (s : string) : string := if String.eqb s "" then "—" else s.

(** [build_pdf]: [screenshot] is the size of the image behind
    [screenshot_path], or [None] when there is no such readable file;
    [when_str] is the time stamp read from the clock. *)
Definition build_pdf (screenshot : option (Z * Z)) (url page_title : string)
    (overall_score : Q) (label : string) (breakdown : list (string * Q))
    (tips : list string) (when_str : string) : option canvas :=
  let c := [Header report_title when_str] in
  let y := (PAGE_H - MARGIN - 18 * mm)%Q in
  let c := c ++ [DrawString MARGIN y ("Report generated for: " ++ or_dash url)%string] in
  let y := (y - LINE_H)%Q in
  let c := c ++ [KV MARGIN y "Title:" (or_dash page_title)] in
  let y := (y - 8)%Q in
  let top_used := (PAGE_H - y - MARGIN)%Q in
  c ← match screenshot with
      | Some (img_w, img_h) => _draw_screenshot_sliced img_w img_h top_used true c
      | None => Some (c ++ [DrawString MARGIN y "Screenshot could not be rendered."])
      end;
  let c := c ++ [ShowPage; Header report_title when_str] in
  let y := (PAGE_H - MARGIN - 18 * mm)%Q in
  let rows :=
    {| metric := "Overall"; shown := py_round overall_score;
       suffix := if String.eqb label "" then "/100" else ("/100 — " ++ label)%string |}
    :: ordered_rows breakdown ++ extra_rows breakdown in
  let c := c ++ [TableScores MARGIN y rows (PAGE_W - 2 * MARGIN);
                 LineChart MARGIN y (PAGE_W - 2 * MARGIN) (60 * mm) (chart_series breakdown)] in
  let c := c ++ [ShowPage; Header report_title when_str] in
  let y := (PAGE_H - MARGIN - 18 * mm)%Q in
  Some (c ++ [Recommendations tips y]).

(** The pages of a canvas: the operations between two [showPage] calls. *)
Fixpoint pages (c : canvas) : list (list op) :=
  match c with
  | [] => [[]]
  | ShowPage :: rest => [] :: pages rest
  | o :: rest =>
      match pages rest with
      | p :: ps => (o :: p) :: ps
      | [] => [[o]]
      end
  end.

Definition is_image (o : op) : bool :=
  match o with DrawImage _ _ _ _ _ _ => true | _ => false end.

Definition is_table (o : op) : bool :=
  match o with TableScores _ _ _ _ => true | _ => false end.

(** The pages in front of the score page. *)
Fixpoint before_score_page (ps : list (list op)) : list (list op) :=
  match ps with
  | [] => []
  | p :: rest => if existsb is_table p then [] else p :: before_score_page rest
  end.

(** The number of pages in front of the score page that carry a slice of
    the screenshot. *)
Definition screenshot_pages (c : canvas) : nat :=
  length (List.filter (existsb is_image) (before_score_page (pages c))).

End Report.

(** ** [app/app.py]: the label of a score and the weights of a run *)

Module App.

(** The table [LABELS] of [label_for]. *)
Definition LABELS : list (Z * string) :=
  [(90, "Excellent"); (80, "Great"); (70, "Good"); (60, "Fair"); (0, "Needs work")].

(** [for th, lab in labels: if score >= th: return lab]; [None] when the
    loop ends without returning. *)
Fixpoint first_label (score : Z) (labels : list (Z * string)) : option string :=
  match labels with
  | [] => None
  | (th, lab) :: rest => if th <=? score then Some lab else first_label score rest
  end.

Definition label_for (score : Z) : string :=
  match first_label score LABELS with
  | Some lab => lab
  | None => "Needs work"
  end.

(** The dict [WEIGHTS] that [analyze] hands to [make_scores]. *)
Definition WEIGHTS : gmap string Q :=
  <["Accessibility" := 0.16%Q]>
    (<["Responsive" := 0.18%Q]>
       (<["Layout & Structure" := 0.22%Q]>
          (<["Color & Contrast" := 0.22%Q]>
             (<["Typography" := 0.22%Q]> ∅)))).

End App.

(** ** The formulas as the specification words them

    These definitions follow the sentences of the specification, not the
    code; they are what the code is compared against. *)

Module Stated.
Import Num Dom Scoring.

(** "fraction of 12 equal-width hue-histogram bins whose pixel count
    exceeds 0.05% of total pixels". *)
Definition diversity (img : sampled_image) : Q :=
  (inject_Z (len (List.filter
                    (fun n => Qltb (inject_Z (len (hue img)) * 0.0005) (inject_Z n))
                    (hue_bins img))) / 12)%Q.

(** "clamp(0,100, round(contrast*180 + diversity*40))". *)
Definition color_score (img : sampled_image) : Z :=
  Z.max 0 (Z.min 100 (py_round (lum_std img * 180 + diversity img * 40))).

Section Analyzers.

Variable BeautifulSoup : string -> soup.

(** "clamp(0,100, round(40 + min(30, (imagesWithAlt/max(1,totalImages))*30)
    + min(30, ariaAttributeCount+roleCount+labelCount)))", the ARIA
    attributes counted by the [aria-] prefix scan. *)
Definition accessibility_score (html : string) : Z :=
  let info := Insights.analyze_accessibility BeautifulSoup html in
  let total := Insights.images_total info in
  let with_alt := total - Insights.images_without_alt info in
  let hints := Insights.aria_attrs info + Insights.roles info + Insights.labels info in
  Z.max 0 (Z.min 100 (py_round
    (40 + Qmin 30 (inject_Z with_alt / inject_Z (Z.max 1 total) * 30)
     + Qmin 30 (inject_Z hints)))).

(** "count of @media rules and responsive-breakpoint utility-class
    occurrences (tracked per standard breakpoint name)". *)
Definition hint_count (html : string) : Z :=
  let info := Insights.analyze_responsive BeautifulSoup html in
  Insights.media_queries info
  + List.fold_right Z.add 0
      (List.map (fun k => default 0 (Insights.tw info !! k)) ["sm"; "md"; "lg"; "xl"; "2xl"]).

(** "clamp(0,100, 50 + (25 if viewport-meta present else -10)
    + min(35, mediaQueryOrBreakpointHintCount*0.5))". *)
Definition responsive_score (html : string) : Q :=
  let info := Insights.analyze_responsive BeautifulSoup html in
  clamp 0 100
    (50 + (if Insights.viewport info then 25 else -10)
     + Qmin 35 (inject_Z (hint_count html) * 0.5)).

End Analyzers.

(** "overall = round(Σ weight[c]*value[c]), clamped to [0,100]". *)
Definition overall (total : Q) : Z := Z.max 0 (Z.min 100 (py_round total)).

(** Text put between the nodes of a run of siblings; the nodes of the run
    keep their order. *)
Inductive with_text : soup -> soup -> Prop :=
| with_text_nil : with_text [] []
| with_text_keep (n : node) (l l' : soup) :
    with_text l l' -> with_text (n :: l) (n :: l')
| with_text_new (t : string) (l l' : soup) :
    with_text l l' -> with_text l (Text t :: l').

(** "adding an h1 to HTML with none ..., all else equal": the second
    document is the first one with one new [h1] element, with any
    attributes and any text of its own, put around a possibly empty run of
    sibling nodes at any depth; every other node is unchanged. *)
Inductive h1_added : soup -> soup -> Prop :=
| h1_added_here (before inside kids after : soup) (attrs : gmap string string) :
    with_text inside kids ->
    h1_added (before ++ inside ++ after) (before ++ Tag "h1" attrs kids :: after)
| h1_added_below (before : soup) (nm : string) (attrs : gmap string string)
    (cs cs' after : soup) :
    h1_added cs cs' ->
    h1_added (before ++ Tag nm attrs cs :: after) (before ++ Tag nm attrs cs' :: after).

(** "Deduplicated by hex, insertion order": an item is kept when no item
    in front of it has its [hex]. *)
Fixpoint first_seen (items : list Palette.entry) : list Palette.entry :=
  match items with
  | [] => []
  | x :: rest =>
      x :: List.filter
             (fun y => negb (String.eqb (Palette.hex y) (Palette.hex x)))
             (first_seen rest)
  end.

(** "fall back to the single most frequent raw color at 100%". *)
Definition fallback (cnt : Palette.counter) : list Palette.entry :=
  match Palette.most_common 1 cnt with
  | (c, _) :: _ => [{| Palette.hex := Palette._rgb_to_hex c; Palette.pct := 100; Palette.rgb := c |}]
  | [] => []
  end.

(** "screenshot taller than one printable page height by 3x": the scaled
    height is three times the usable page height. *)
Definition three_pages_tall (img_w img_h : Z) : Prop :=
  (Report.scaled_h img_w img_h == 3 * Report.usable_h)%Q.

End Stated.

(** ** Edits of a document *)

Module Edits.
Import Dom.

(** The second document is the first one with one new element [nm] with
    attributes [attrs], with any text of its own, put around a possibly
    empty run of sibling nodes at any depth; every other node is
    unchanged. *)
Inductive element_added (nm : string) (attrs : gmap string string) : soup -> soup -> Prop :=
| element_added_here (before inside kids after : soup) :
    Stated.with_text inside kids ->
    element_added nm attrs (before ++ inside ++ after) (before ++ Tag nm attrs kids :: after)
| element_added_below (before : soup) (nm' : string) (attrs' : gmap string string)
    (cs cs' after : soup) :
    element_added nm attrs cs cs' ->
    element_added nm attrs (before ++ Tag nm' attrs' cs :: after)
      (before ++ Tag nm' attrs' cs' :: after).

End Edits.

(** ** The colour signal in integer arithmetic *)

Module Exact.
Import Scoring.

(** Hue byte [h] lies in the [i]-th of twelve bins of width 255/12 over
    [0,255]; the last bin holds its right end. *)
Definition in_bin (i h : Z) : bool :=
  (0 <=? h) && (h <=? 255) &&
  (((255 * i <=? 12 * h) && (12 * h <? 255 * (i + 1))) || ((i =? 11) && (h =? 255))).

(** The number of pixels whose hue lies in bin [i]. *)
Definition bin_count (img : sampled_image) (i : Z) : Z :=
  len (List.filter (in_bin i) (hue img)).

(** The number of bins holding more than 0.05% of the array elements,
    three elements a pixel: [count > 3 * pixels / 2000]. *)
Definition busy_bins (img : sampled_image) : Z :=
  len (List.filter
         (fun i => 3 * len (hue img) <? 2000 * bin_count img (Z.of_nat i))
         (seq 0 12)).

(** The pixels counted by the twelve bins together. *)
Definition binned (img : sampled_image) : Z :=
  fold_right Z.add 0 (List.map (fun i => bin_count img (Z.of_nat i)) (seq 0 12)).

End Exact.

(** ** Concrete inputs *)

Module Samples.
Import Num Dom.

(** The parse of the empty page. *)
Definition empty_document : string -> soup := fun _ => [].

(** A parser known on one page only: [dom] is the parse of [page]. *)
Definition parsed_as (page : string) (dom : soup) : string -> soup :=
  fun html => if String.eqb html page then dom else [].

(** A parser known on two pages: a paragraph, and the same paragraph
    under a new heading. *)
Definition plain_page : string := "<p>x</p>".
Definition headed_page : string := "<h1>Title</h1><p>x</p>".
Definition two_pages : string -> soup :=
  fun html =>
    if String.eqb html headed_page
    then [Tag "h1" ∅ [Text "Title"]; Tag "p" ∅ [Text "x"]]
    else if String.eqb html plain_page then [Tag "p" ∅ [Text "x"]]
    else [].

(** An element with an ARIA attribute other than [aria-label]. *)
Definition aria_page : string := "<div aria-hidden='true'></div>".
Definition aria_parser : string -> soup :=
  parsed_as aria_page [Tag "div" {["aria-hidden" := "true"]} []].

(** Seven images, six of them with alternative text. *)
Definition gallery_page : string :=
  "<img alt='a'><img alt='b'><img alt='c'><img alt='d'><img alt='e'><img alt='f'><img>".
Definition gallery_parser : string -> soup :=
  parsed_as gallery_page
    [Tag "img" {["alt" := "a"]} []; Tag "img" {["alt" := "b"]} [];
     Tag "img" {["alt" := "c"]} []; Tag "img" {["alt" := "d"]} [];
     Tag "img" {["alt" := "e"]} []; Tag "img" {["alt" := "f"]} [];
     Tag "img" ∅ []].

(** The word "viewport" in running text, no [meta] element. *)
Definition viewport_text_page : string := "<p>viewport</p>".
Definition viewport_text_parser : string -> soup :=
  parsed_as viewport_text_page [Tag "p" ∅ [Text "viewport"]].

(** One utility class of the [lg] breakpoint. *)
Definition lg_page : string := "<p class='lg:p-4'></p>".
Definition lg_parser : string -> soup :=
  parsed_as lg_page [Tag "p" {["class" := "lg:p-4"]} []].

(** A page with one section, and the same page with a second one. *)
Definition one_section_page : string := "<section></section>".
Definition two_section_page : string := "<section></section><section></section>".
Definition section_pages : string -> soup :=
  fun html =>
    if String.eqb html two_section_page
    then [Tag "section" ∅ []; Tag "section" ∅ []]
    else if String.eqb html one_section_page then [Tag "section" ∅ []]
    else [].

(** A page with one described image, and the same page with a second
    image that has no alternative text. *)
Definition described_page : string := "<img alt='logo'>".
Definition undescribed_page : string := "<img alt='logo'><img>".
Definition image_pages : string -> soup :=
  fun html =>
    if String.eqb html undescribed_page
    then [Tag "img" {["alt" := "logo"]} []; Tag "img" ∅ []]
    else if String.eqb html described_page then [Tag "img" {["alt" := "logo"]} []]
    else [].

(** A black image, one row of 256 pixels: no luminance spread, hue 0. *)
Definition black_image : Scoring.sampled_image :=
  {| Scoring.lum_std := 0; Scoring.hue := repeat 0 256 |}.

(** A black image of 256 x 40 pixels with ten pixels of colour (0,0,1):
    hue byte 170 for those, and a luminance spread of about 6.9e-7. *)
Definition speckled_image : Scoring.sampled_image :=
  {| Scoring.lum_std := 7 # 10000000;
     Scoring.hue := repeat 0 (Z.to_nat 10230) ++ repeat 170 10 |}.

(** Three quantised pixels, one black and two white, nothing saturated
    and no edge filter. *)
Definition grey_raster : Palette.raster :=
  {| Palette.quantized := fun _ => [(0, 0, 0); (255, 255, 255); (255, 255, 255)];
     Palette.saturation_base := [(0, 0, 0); (255, 255, 255); (255, 255, 255)];
     Palette.edge_rgbs := None |}.

(** Quantised white and black, two saturated reds, blue and white on the
    edges. *)
Definition logo_raster : Palette.raster :=
  {| Palette.quantized :=
       fun _ => [(255, 255, 255); (255, 255, 255); (0, 0, 0); (255, 0, 0)];
     Palette.saturation_base :=
       [(255, 255, 255); (255, 0, 0); (0, 0, 0); (255, 0, 0); (200, 10, 10)];
     Palette.edge_rgbs := Some [(0, 0, 255); (255, 0, 0); (255, 255, 255)] |}.

(** Weights that sum to 1 with one negative entry. *)
Definition signed_weights : gmap string Q :=
  <["Accessibility" := 0%Q]>
    (<["Responsive" := 0%Q]>
       (<["Layout & Structure" := 0%Q]>
          (<["Color & Contrast" := 2%Q]>
             (<["Typography" := (-1)%Q]> ∅)))).

Definition no_meta : Scoring.Meta :=
  {| Scoring.color := {| Scoring.contrast_sd := 0; Scoring.hue_diversity := 0 |};
     Scoring.typography :=
       {| Scoring.headings := 0; Scoring.has_h1 := false; Scoring.has_h2 := false |};
     Scoring.layout := {| Scoring.grids := 0; Scoring.sections := 0; Scoring.paragraphs := 0 |};
     Scoring.responsive := {| Scoring.viewport := false; Scoring.mq_classes := 0 |};
     Scoring.accessibility :=
       {| Scoring.imgs := 0; Scoring.with_alt := 0; Scoring.aria_or_role := 0;
          Scoring.labels := 0 |} |}.

(** The breakdown of the empty page with the black image. *)
Definition low_breakdown : gmap string Q :=
  <["Accessibility" := 40%Q]>
    (<["Responsive" := 40%Q]>
       (<["Layout & Structure" := 40%Q]>
          (<["Color & Contrast" := 3%Q]>
             (<["Typography" := 40%Q]> ∅)))).

End Samples.

(** * Properties *)

Import Num Dom.

(** ** Numbers *)

Lemma Qltb_lt x y : Qltb x y = true <-> (x < y)%Q.
Proof.
  unfold Qltb. rewrite negb_true_iff.
  destruct (Qle_bool y x) eqn:E.
  - apply Qle_bool_iff in E. split; [discriminate | intros H; exfalso; lra].
  - split; [intros _ | reflexivity].
    apply Qnot_le_lt. intros H. apply Qle_bool_iff in H. congruence.
Qed.

Lemma Qltb_ge x y : Qltb x y = false <-> (y <= x)%Q.
Proof.
  unfold Qltb. rewrite negb_false_iff. apply Qle_bool_iff.
Qed.

Lemma py_int_nonneg_floor x : (0 <= x)%Q -> py_int x = Qfloor x.
Proof.
  destruct x as [n d]. unfold py_int, Qfloor, Qle. simpl. intros H.
  apply Z.quot_div_nonneg; lia.
Qed.

Lemma py_int_inject z : py_int (inject_Z z) = z.
Proof. unfold py_int. simpl. apply Z.quot_1_r. Qed.

Lemma py_int_proper x y : (x == y)%Q -> py_int x = py_int y.
Proof.
  destruct x as [a b], y as [c d]. unfold Qeq, py_int. simpl. intros H.
  transitivity (Z.quot (a * Z.pos d) (Z.pos b * Z.pos d)).
  - symmetry. apply Z.quot_mul_cancel_r; lia.
  - rewrite H, (Z.mul_comm (Z.pos b)). apply Z.quot_mul_cancel_r; lia.
Qed.

Lemma clamp_bounds lo hi x : (lo <= hi)%Q -> (lo <= clamp lo hi x <= hi)%Q.
Proof.
  intros H. unfold clamp. split.
  - apply Q.le_max_l.
  - apply Q.max_lub; [assumption | apply Q.le_min_l].
Qed.

Lemma clamp_id lo hi x : (lo <= x <= hi)%Q -> (clamp lo hi x == x)%Q.
Proof.
  intros [H1 H2]. unfold clamp.
  rewrite (Q.min_r hi x) by assumption. apply Q.max_r. assumption.
Qed.

(** ** Strings and documents *)

Section StrExamples.
Import Str.

Example count_non_overlapping : count "aa" "aaaa" = 2%nat.
Proof. reflexivity. Qed.

Example count_md : count "md:" "md:flex md:p-4 @media" = 2%nat.
Proof. reflexivity. Qed.

Example lower_mixed : lower "ViewPort-9" = "viewport-9".
Proof. reflexivity. Qed.

Example join_three : join " " ["a"; ""; "b"] = "a  b".
Proof. reflexivity. Qed.

End StrExamples.

Lemma find_all_app (s1 s2 : soup) : find_all (s1 ++ s2) = find_all s1 ++ find_all s2.
Proof. unfold find_all. apply flat_map_app. Qed.

Lemma find_all_cons (n : node) (s : soup) : find_all (n :: s) = descend n ++ find_all s.
Proof. reflexivity. Qed.

Lemma descend_tag nm a cs : descend (Tag nm a cs) = Tag nm a cs :: find_all cs.
Proof. reflexivity. Qed.

Example heading_names :
  List.map is_heading_name ["h1"; "h6"; "h0"; "h7"; "h"; "h12"; "header"]
  = [true; true; false; false; false; false; false].
Proof. reflexivity. Qed.

Example find_all_order :
  List.map name_of
    (find_all [Tag "div" ∅ [Tag "p" ∅ [Text "x"]; Tag "h1" ∅ []]; Tag "img" ∅ []])
  = ["div"; "p"; "h1"; "img"].
Proof. reflexivity. Qed.


(** ** Recommendations *)

Section Recommendations.
Import Scoring.

(** Closed goals about the concrete tip lists. *)
Ltac tips_sublist :=
  repeat first [ apply sublist_nil | apply sublist_skip | apply sublist_cons ].

Ltac tips_member :=
  split;
  [ first [ reflexivity
          | intros Hin; exfalso; revert Hin;
            apply (bool_decide_unpack _); vm_compute; exact I ]
  | first [ discriminate
          | intros _; apply (bool_decide_unpack _); vm_compute; exact I ] ].

Lemma append_if_below_true s lim tip tips :
  Qltb s lim = true -> append_if_below s lim tip tips = tips ++ [tip].
Proof. unfold append_if_below. intros ->. reflexivity. Qed.

Lemma append_if_below_false s lim tip tips :
  Qltb s lim = false -> append_if_below s lim tip tips = tips.
Proof. unfold append_if_below. intros ->. reflexivity. Qed.

(** The value of [recommendations] once the five keys are known. *)
Lemma recommendations_unfold (breakdown : gmap string Q) (meta : Meta) (t l c r a : Q) :
  breakdown !! "Typography" = Some t ->
  breakdown !! "Layout & Structure" = Some l ->
  breakdown !! "Color & Contrast" = Some c ->
  breakdown !! "Responsive" = Some r ->
  breakdown !! "Accessibility" = Some a ->
  recommendations breakdown meta =
  Some (match
          append_if_below a 85 tip_accessibility
            (append_if_below r 90 tip_responsive
               (append_if_below c 80 tip_color
                  (append_if_below l 80 tip_layout
                     (append_if_below t 80 tip_typography []))))
        with
        | [] => [tip_great]
        | tips => tips
        end).
Proof.
  intros Ht Hl Hc Hr Ha. unfold recommendations.
  rewrite Ht. simpl. rewrite Hl. simpl. rewrite Hc. simpl.
  rewrite Hr. simpl. rewrite Ha. simpl.
  destruct (append_if_below a 85 _ _); reflexivity.
Qed.

(** C5. For a breakdown holding the five category scores,
    [recommendations] returns a list of tips that is never empty; when no
    category is below its threshold (80 for Typography, Layout & Structure
    and Color & Contrast, 90 for Responsive, 85 for Accessibility) the list
    is exactly the positive-reinforcement tip; otherwise it is a sublist of
    the tips in the fixed category order (so each tip occurs at most once
    and in that order) and it holds the tip of a category exactly when that
    category's score is below its threshold. *)
Theorem recommendations_one_tip_per_low_category
    (breakdown : gmap string Q) (meta : Meta) (t l c r a : Q) :
  breakdown !! "Typography" = Some t ->
  breakdown !! "Layout & Structure" = Some l ->
  breakdown !! "Color & Contrast" = Some c ->
  breakdown !! "Responsive" = Some r ->
  breakdown !! "Accessibility" = Some a ->
  exists tips : list string,
    recommendations breakdown meta = Some tips /\
    tips <> [] /\
    ((80 <= t /\ 80 <= l /\ 80 <= c /\ 90 <= r /\ 85 <= a)%Q -> tips = [tip_great]) /\
    ((t < 80 \/ l < 80 \/ c < 80 \/ r < 90 \/ a < 85)%Q ->
       sublist tips category_tips /\
       (tip_typography ∈ tips <-> (t < 80)%Q) /\
       (tip_layout ∈ tips <-> (l < 80)%Q) /\
       (tip_color ∈ tips <-> (c < 80)%Q) /\
       (tip_responsive ∈ tips <-> (r < 90)%Q) /\
       (tip_accessibility ∈ tips <-> (a < 85)%Q)).
Proof.
  intros Ht Hl Hc Hr Ha.
  rewrite (recommendations_unfold breakdown meta t l c r a) by assumption.
  eexists. split; [reflexivity|].
  rewrite <- !Qltb_lt, <- !Qltb_ge.
  destruct (Qltb t 80) eqn:Et, (Qltb l 80) eqn:El, (Qltb c 80) eqn:Ec,
    (Qltb r 90) eqn:Er, (Qltb a 85) eqn:Ea;
    rewrite ?(append_if_below_true _ _ _ _ Et), ?(append_if_below_false _ _ _ _ Et),
      ?(append_if_below_true _ _ _ _ El), ?(append_if_below_false _ _ _ _ El),
      ?(append_if_below_true _ _ _ _ Ec), ?(append_if_below_false _ _ _ _ Ec),
      ?(append_if_below_true _ _ _ _ Er), ?(append_if_below_false _ _ _ _ Er),
      ?(append_if_below_true _ _ _ _ Ea), ?(append_if_below_false _ _ _ _ Ea);
    simpl; (split; [discriminate|]);
    (split; [first [ reflexivity | intros (?&?&?&?&?); discriminate ]|]);
    (intros Hlow;
     first [ destruct Hlow as [?|[?|[?|[?|?]]]]; discriminate
           | unfold category_tips; split; [tips_sublist|];
             split; [tips_member|]; split; [tips_member|];
             split; [tips_member|]; split; tips_member ]).
Qed.

(** C10. The tips do not depend on the [meta] argument. *)
Theorem recommendations_ignores_meta (breakdown : gmap string Q) (meta1 meta2 : Meta) :
  recommendations breakdown meta1 = recommendations breakdown meta2.
Proof. reflexivity. Qed.

End Recommendations.

(** ** Sub-score ranges and the overall score *)

Section Overall.
Import Scoring.

Variable BeautifulSoup : string -> soup.

Lemma Qmax_Qmin_range x : (0 <= Qmax 0 (Qmin 100 x) <= 100)%Q.
Proof. apply (clamp_bounds 0 100 x). lra. Qed.

Lemma py_int_range x : (0 <= x <= 100)%Q -> 0 <= py_int x <= 100.
Proof.
  intros [H0 H1]. rewrite py_int_nonneg_floor by assumption. split.
  - change 0 with (Qfloor 0). apply Qfloor_resp_le. assumption.
  - change 100 with (Qfloor 100). apply Qfloor_resp_le. assumption.
Qed.

Lemma Zclamp_range z : 0 <= Z.max 0 (Z.min 100 z) <= 100.
Proof. lia. Qed.

Lemma inject_Z_range z : 0 <= z <= 100 -> (0 <= inject_Z z <= 100)%Q.
Proof.
  intros [H0 H1]. split.
  - change 0%Q with (inject_Z 0). rewrite <- Zle_Qle. assumption.
  - change 100%Q with (inject_Z 100). rewrite <- Zle_Qle. assumption.
Qed.

Lemma analyze_typography_range html :
  (0 <= fst (analyze_typography BeautifulSoup html) <= 100)%Q.
Proof. apply Qmax_Qmin_range. Qed.

Lemma analyze_layout_range html :
  0 <= fst (analyze_layout BeautifulSoup html) <= 100.
Proof. apply Zclamp_range. Qed.

Lemma analyze_responsive_range html :
  (0 <= fst (analyze_responsive html) <= 100)%Q.
Proof. apply Qmax_Qmin_range. Qed.

Lemma analyze_accessibility_range html :
  0 <= fst (analyze_accessibility BeautifulSoup html) <= 100.
Proof. apply Zclamp_range. Qed.

Lemma color_score_range x : 0 <= py_int (Qmin 100 (Qmax 0 x)) <= 100.
Proof.
  apply py_int_range. split.
  - apply Q.min_glb; [lra | apply Q.le_max_l].
  - apply Q.le_min_l.
Qed.

(** The weighted sum over the five keys, once both dicts hold them. *)
Lemma weighted_sum_five (breakdown weights : gmap string Q)
    (t c l r a wt wc wl wr wa : Q) :
  breakdown !! "Typography" = Some t ->
  breakdown !! "Color & Contrast" = Some c ->
  breakdown !! "Layout & Structure" = Some l ->
  breakdown !! "Responsive" = Some r ->
  breakdown !! "Accessibility" = Some a ->
  weights !! "Typography" = Some wt ->
  weights !! "Color & Contrast" = Some wc ->
  weights !! "Layout & Structure" = Some wl ->
  weights !! "Responsive" = Some wr ->
  weights !! "Accessibility" = Some wa ->
  weighted_sum breakdown weights breakdown_keys 0
  = Some (0 + t * wt + c * wc + l * wl + r * wr + a * wa)%Q.
Proof.
  intros Ht Hc Hl Hr Ha Wt Wc Wl Wr Wa. unfold breakdown_keys. simpl.
  rewrite Ht, Wt. simpl. rewrite Hc, Wc. simpl. rewrite Hl, Wl. simpl.
  rewrite Hr, Wr. simpl. rewrite Ha, Wa. reflexivity.
Qed.

Lemma convex_bound (t c l r a wt wc wl wr wa : Q) :
  (0 <= t <= 100 -> 0 <= c <= 100 -> 0 <= l <= 100 -> 0 <= r <= 100 ->
   0 <= a <= 100 ->
   0 <= wt -> 0 <= wc -> 0 <= wl -> 0 <= wr -> 0 <= wa ->
   wt + wc + wl + wr + wa == 1 ->
   0 <= 0 + t * wt + c * wc + l * wl + r * wr + a * wa <= 100)%Q.
Proof.
  intros [] [] [] [] [] ? ? ? ? ? Hs.
  assert (0 <= t * wt <= 100 * wt)%Q by (split; [apply Qmult_le_0_compat | apply Qmult_le_compat_r]; assumption).
  assert (0 <= c * wc <= 100 * wc)%Q by (split; [apply Qmult_le_0_compat | apply Qmult_le_compat_r]; assumption).
  assert (0 <= l * wl <= 100 * wl)%Q by (split; [apply Qmult_le_0_compat | apply Qmult_le_compat_r]; assumption).
  assert (0 <= r * wr <= 100 * wr)%Q by (split; [apply Qmult_le_0_compat | apply Qmult_le_compat_r]; assumption).
  assert (0 <= a * wa <= 100 * wa)%Q by (split; [apply Qmult_le_0_compat | apply Qmult_le_compat_r]; assumption).
  lra.
Qed.


End Overall.

(** C5, at the breakdown of the empty page: all five tips. *)
Lemma recommendations_one_tip_per_low_category_witness :
  exists tips : list string,
    Scoring.recommendations Samples.low_breakdown Samples.no_meta = Some tips /\
    tips = Scoring.category_tips.
Proof.
  destruct (recommendations_one_tip_per_low_category
              Samples.low_breakdown Samples.no_meta 40 40 3 40 40
              eq_refl eq_refl eq_refl eq_refl eq_refl)
    as (tips & Heq & _).
  exists tips. split; [exact Heq|].
  vm_compute in Heq. injection Heq as <-. reflexivity.
Defined.



(** ** Typography: adding an h1 *)

Section Typography.
Import Scoring Stated.

Lemma shallow_name (f : string -> bool) : shallow (fun n => f (name_of n)).
Proof. intros nm a cs cs'. reflexivity. Qed.

Lemma shallow_inline_size : shallow sel_inline_size.
Proof. intros nm a cs cs'. reflexivity. Qed.

Lemma count_app P s1 s2 : count_of P (s1 ++ s2) = count_of P s1 + count_of P s2.
Proof.
  unfold count_of, find_all_by, len.
  rewrite find_all_app, List.filter_app, length_app. lia.
Qed.

Lemma count_tag P nm a cs after :
  count_of P (Tag nm a cs :: after)
  = (if P (Tag nm a cs) then 1 else 0) + count_of P cs + count_of P after.
Proof.
  change (Tag nm a cs :: after) with ([Tag nm a cs] ++ after).
  rewrite count_app. f_equal.
  unfold count_of, find_all_by, len, find_all. simpl. rewrite app_nil_r.
  destruct (P (Tag nm a cs)); simpl; lia.
Qed.

Lemma count_cons P n s : count_of P (n :: s) = count_of P [n] + count_of P s.
Proof. change (n :: s) with ([n] ++ s). apply count_app. Qed.

Lemma with_text_count P inside kids :
  with_text inside kids -> count_of P kids = count_of P inside.
Proof.
  induction 1 as [|n l l' _ IH|t l l' _ IH]; [reflexivity| |].
  - rewrite (count_cons P n l), (count_cons P n l'), IH. reflexivity.
  - rewrite (count_cons P (Text t) l'), IH. reflexivity.
Qed.

Lemma count_nonneg P s : 0 <= count_of P s.
Proof. unfold count_of, len. lia. Qed.

(** Adding the element adds it to the count_of of every selector it matches
    and changes no other count_of. *)
Lemma h1_added_count s s' :
  h1_added s s' ->
  exists a, forall P, shallow P ->
    count_of P s' = count_of P s + (if P (Tag "h1" a []) then 1 else 0).
Proof.
  induction 1 as [before inside kids after attrs Hkids
                 | before nm attrs cs cs' after _ [a IH]].
  - exists attrs. intros P HP.
    rewrite !count_app, count_tag, (HP "h1" attrs kids []),
      (with_text_count P _ _ Hkids).
    destruct (P (Tag "h1" attrs [])); lia.
  - exists a. intros P HP. specialize (IH P HP).
    rewrite !count_app, !count_tag, (HP nm attrs cs cs'), IH. lia.
Qed.

Lemma existsb_count P s : existsb P (find_all s) = (0 <? count_of P s).
Proof.
  unfold count_of, find_all_by, len.
  induction (find_all s) as [|n l IH]; [reflexivity|].
  simpl. destruct (P n); simpl.
  - symmetry. apply Z.ltb_lt. lia.
  - exact IH.
Qed.

Lemma find_name_count nm s :
  find_name nm s = (0 <? count_of (fun n => String.eqb (name_of n) nm) s).
Proof. apply existsb_count. Qed.

Lemma Qmin_le_compat_r' a x y : (x <= y)%Q -> (Qmin a x <= Qmin a y)%Q.
Proof. intros H. apply Q.min_le_compat_l. assumption. Qed.

Variable BeautifulSoup : string -> soup.


End Typography.


(** ** Accessibility *)

Section Accessibility.
Import Scoring.

Lemma Qfloor_unique (x : Q) (z : Z) :
  (inject_Z z <= x)%Q -> (x < inject_Z (z + 1))%Q -> Qfloor x = z.
Proof.
  intros Hle Hlt.
  pose proof (Qfloor_le x) as H1. pose proof (Qlt_floor x) as H2.
  assert (A : (inject_Z z < inject_Z (Qfloor x + 1))%Q) by lra.
  assert (B : (inject_Z (Qfloor x) < inject_Z (z + 1))%Q) by lra.
  rewrite <- Zlt_Qlt in A, B. lia.
Qed.

Lemma Qfloor_ratio (w m : Z) :
  0 < m -> Qfloor (inject_Z w / inject_Z m * 30) = (w * 30) / m.
Proof.
  intros Hm. destruct m as [|p|p]; try lia.
  transitivity (Qfloor ((w * 30) # p)); [|reflexivity].
  apply Qfloor_comp. unfold Qeq, Qdiv, Qmult, Qinv, inject_Z. simpl. lia.
Qed.

Lemma filter_length_le {A : Type} (f : A -> bool) (l : list A) :
  (length (List.filter f l) <= length l)%nat.
Proof.
  induction l as [|x l IH]; simpl; [lia|]. destruct (f x); simpl; lia.
Qed.

Variable BeautifulSoup : string -> soup.


End Accessibility.


(** ** Responsive *)

Section Responsive.
Import Scoring.

Lemma half_points (k : Z) (v : bool) :
  0 <= k ->
  (2 * Qmax 0 (Qmin 100 (50 + (if v then 25 else -10) + Qmin 35 (inject_Z k * 0.5)))
   == inject_Z (Z.min 200 (100 + (if v then 50 else -20) + Z.min 70 k)))%Q.
Proof.
  intros Hk.
  assert (H0 : (0 <= inject_Z k)%Q) by (change 0%Q with (inject_Z 0); rewrite <- Zle_Qle; lia).
  destruct (Z_le_gt_dec k 70) as [Hle|Hgt].
  - assert (H70 : (inject_Z k <= 70)%Q) by (change 70%Q with (inject_Z 70); rewrite <- Zle_Qle; lia).
    rewrite (Z.min_r 70 k) by lia.
    assert (Hm : (Qmin 35 (inject_Z k * 0.5) == inject_Z k * 0.5)%Q) by (apply Q.min_r; lra).
    destruct v.
    + destruct (Z_le_gt_dec k 50) as [Hle'|Hgt'].
      * assert (H50 : (inject_Z k <= 50)%Q)
          by (change 50%Q with (inject_Z 50); rewrite <- Zle_Qle; lia).
        rewrite (Z.min_r 200) by lia.
        rewrite !inject_Z_plus. change (inject_Z 100) with 100%Q. change (inject_Z 50) with 50%Q.
        rewrite (Q.min_r 100) by lra. rewrite Q.max_r by lra. lra.
      * assert (H50 : (50 <= inject_Z k)%Q)
          by (change 50%Q with (inject_Z 50); rewrite <- Zle_Qle; lia).
        rewrite (Z.min_l 200) by lia. change (inject_Z 200) with 200%Q.
        rewrite (Q.min_l 100) by lra. rewrite Q.max_r by lra. lra.
    + rewrite (Z.min_r 200) by lia.
      rewrite !inject_Z_plus. change (inject_Z 100) with 100%Q. change (inject_Z (-20)) with (-20)%Q.
      rewrite (Q.min_r 100) by lra. rewrite Q.max_r by lra. lra.
  - assert (H70 : (70 <= inject_Z k)%Q) by (change 70%Q with (inject_Z 70); rewrite <- Zle_Qle; lia).
    rewrite (Z.min_l 70 k) by lia.
    assert (Hm : (Qmin 35 (inject_Z k * 0.5) == 35)%Q) by (apply Q.min_l; lra).
    destruct v.
    + rewrite (Z.min_l 200) by lia. change (inject_Z 200) with 200%Q.
      rewrite (Q.min_l 100) by lra. rewrite Q.max_r by lra. lra.
    + rewrite (Z.min_r 200) by lia. change (inject_Z (100 + -20 + 70)) with 150%Q.
      rewrite (Q.min_r 100) by lra. rewrite Q.max_r by lra. lra.
Qed.

(** C4 (as the code has it). The Responsive sub-score is
    [clamp(0,100, 50 + (25 if viewport else -10) + min(35, hints*0.5))]
    where [viewport] tells whether the lower-cased page text contains the
    word "viewport" anywhere and [hints] is the number of occurrences of
    ["md:"] plus the number of occurrences of ["@media"] in the page text;
    both are what the returned metadata reports.  In half points the score
    is [min(200, 100 + (50 if viewport else -20) + min(70, hints))], and it
    lies in [40,100]. *)
Theorem responsive_score_md_hints (html : string) :
  let score := fst (analyze_responsive html) in
  let m := snd (analyze_responsive html) in
  viewport m = Str.contains "viewport" (Str.lower html) /\
  mq_classes m = Z.of_nat (Str.count "md:" html) + Z.of_nat (Str.count "@media" html) /\
  (score == clamp 0 100 (50 + (if viewport m then 25 else -10)
                         + Qmin 35 (inject_Z (mq_classes m) * 0.5)))%Q /\
  (2 * score == inject_Z (Z.min 200 (100 + (if viewport m then 50 else -20)
                                      + Z.min 70 (mq_classes m))))%Q /\
  (40 <= score <= 100)%Q.
Proof.
  unfold analyze_responsive. cbn [fst snd viewport mq_classes].
  set (v := Str.contains "viewport" (Str.lower html)).
  set (k := Z.of_nat (Str.count "md:" html) + Z.of_nat (Str.count "@media" html)).
  assert (Hk : 0 <= k) by (unfold k; lia).
  pose proof (half_points k v Hk) as Hh.
  split; [reflexivity|]. split; [reflexivity|]. split; [reflexivity|].
  split; [exact Hh|].
  assert (Hz : 80 <= Z.min 200 (100 + (if v then 50 else -20) + Z.min 70 k) <= 200)
    by (destruct v; lia).
  destruct Hz as [Hz1 Hz2].
  rewrite Zle_Qle in Hz1, Hz2.
  change (inject_Z 80) with 80%Q in Hz1. change (inject_Z 200) with 200%Q in Hz2.
  lra.
Qed.

End Responsive.

(** C4 as stated fails.  A page with the word "viewport" in its text and
    no viewport [meta] element scores 75, not the stated 40; a page whose
    only breakpoint class is of the [lg] breakpoint scores 40, not the
    stated 40.5, since only ["md:"] and ["@media"] are counted. *)
Lemma responsive_score_not_meta_tag :
  ((fst (Scoring.analyze_responsive Samples.viewport_text_page) == 75)%Q /\
   Scoring.viewport (snd (Scoring.analyze_responsive Samples.viewport_text_page)) = true /\
   Insights.viewport
     (Insights.analyze_responsive Samples.viewport_text_parser Samples.viewport_text_page)
   = false /\
   (Stated.responsive_score Samples.viewport_text_parser Samples.viewport_text_page == 40)%Q /\
   ~ (fst (Scoring.analyze_responsive Samples.viewport_text_page)
      == Stated.responsive_score Samples.viewport_text_parser Samples.viewport_text_page)%Q) /\
  ((fst (Scoring.analyze_responsive Samples.lg_page) == 40)%Q /\
   Stated.hint_count Samples.lg_parser Samples.lg_page = 1 /\
   (Stated.responsive_score Samples.lg_parser Samples.lg_page == 40.5)%Q /\
   ~ (fst (Scoring.analyze_responsive Samples.lg_page)
      == Stated.responsive_score Samples.lg_parser Samples.lg_page)%Q).
Proof. repeat split; vm_compute; first [reflexivity | discriminate]. Qed.

(** ** Color & Contrast *)

Section ColorContrast.
Import Scoring Exact.

Ltac split_eqb :=
  match goal with |- context [Z.eqb ?x ?y] => case (Z.eqb_spec x y); intro end.
Ltac split_ltb :=
  match goal with |- context [Z.ltb ?x ?y] => case (Z.ltb_spec x y); intro end.
Ltac split_leb :=
  match goal with |- context [Z.leb ?x ?y] => case (Z.leb_spec x y); intro end.

Ltac bool_cases :=
  repeat first [split_eqb | split_ltb | split_leb];
  cbn [andb orb negb]; first [reflexivity | exfalso; lia].

Lemma hue_bin_in_bin (i : nat) (h : Z) :
  (i < 12)%nat ->
  (in_range h && (hue_bin h =? Z.of_nat i)) = in_bin (Z.of_nat i) h.
Proof.
  intros Hi. unfold in_range, hue_bin, in_bin.
  pose proof (Z.div_mod (h * 12) 255 ltac:(lia)) as Hdm.
  pose proof (Z.mod_pos_bound (h * 12) 255 ltac:(lia)) as Hmb.
  set (d := h * 12 / 255) in *. set (r := (h * 12) mod 255) in *.
  destruct (Z.eqb_spec h 255) as [E255|E255]; cbv iota; bool_cases.
Qed.

Lemma hue_bins_bin_count (img : sampled_image) :
  hue_bins img = List.map (fun i => bin_count img (Z.of_nat i)) (seq 0 12).
Proof.
  unfold hue_bins, bin_count. apply List.map_ext_in. intros i Hi. f_equal.
  apply List.filter_ext. intros h. apply hue_bin_in_bin.
  apply in_seq in Hi. lia.
Qed.

Lemma exceeds_threshold (s n : Z) :
  Qltb (inject_Z (3 * s) * 0.0005) (inject_Z n) = (3 * s <? 2000 * n).
Proof.
  unfold Qltb, Qle_bool, Qmult, inject_Z. cbn [Qnum Qden].
  apply eq_true_iff_eq. rewrite negb_true_iff, Z.leb_gt, Z.ltb_lt. lia.
Qed.

Lemma filter_map_length {A B : Type} (f : A -> B) (p : B -> bool) (l : list A) :
  length (List.filter p (List.map f l)) = length (List.filter (fun x => p (f x)) l).
Proof.
  induction l as [|x l IH]; [reflexivity|]. simpl. destruct (p (f x)); simpl; lia.
Qed.

Lemma analyze_image_colors_exact (img : sampled_image) :
  analyze_image_colors img = (lum_std img, (inject_Z (busy_bins img) / 12)%Q).
Proof.
  unfold analyze_image_colors, busy_bins, arr_size. f_equal. f_equal. f_equal.
  rewrite hue_bins_bin_count. unfold len. f_equal.
  rewrite filter_map_length. f_equal.
  apply List.filter_ext. intros i. apply exceeds_threshold.
Qed.

Lemma py_int_clamp (x : Q) :
  py_int (Qmin 100 (Qmax 0 x)) = Z.max 0 (Z.min 100 (Qfloor x)).
Proof.
  destruct (Qlt_le_dec x 0) as [Hneg|Hpos].
  - rewrite (py_int_proper _ 0).
    + assert (Qfloor x < 0).
      { pose proof (Qfloor_le x). rewrite Zlt_Qlt. change (inject_Z 0) with 0%Q. lra. }
      change (py_int 0) with 0. lia.
    + rewrite Q.max_l by lra. apply Q.min_r. lra.
  - destruct (Qlt_le_dec 100 x) as [Hbig|Hsmall].
    + rewrite (py_int_proper _ 100).
      * assert (100 <= Qfloor x).
        { change 100 with (Qfloor 100). apply Qfloor_resp_le. lra. }
        change (py_int 100) with 100. lia.
      * rewrite Q.max_r by lra. apply Q.min_l. lra.
    + rewrite (py_int_proper _ x).
      * rewrite py_int_nonneg_floor by assumption.
        assert (0 <= Qfloor x) by (change 0 with (Qfloor 0); apply Qfloor_resp_le; assumption).
        assert (Qfloor x <= 100) by (change 100 with (Qfloor 100); apply Qfloor_resp_le; assumption).
        lia.
      * rewrite Q.max_r by lra. apply Q.min_r. lra.
Qed.

Variable BeautifulSoup : string -> soup.

(** C2 (as the code has it). The Color & Contrast sub-score is
    [clamp(0,100, floor(contrast*180 + diversity*40))], the value of
    [int(...)] on the clamped sum, where [contrast] is the luminance
    standard deviation handed over by numpy and [diversity] is the fraction
    of the 12 equal-width hue bins whose count exceeds 0.05% of the number
    of array elements, which is three per pixel (so 0.15% of the
    pixels). *)
Theorem color_score_truncated
    (pil_image : sampled_image) (html : string) (weights : gmap string Q)
    (overall : Z) (breakdown : gmap string Q) (meta : Meta) :
  make_scores BeautifulSoup pil_image html weights = Some (overall, breakdown, meta) ->
  contrast_sd (color meta) = lum_std pil_image /\
  hue_diversity (color meta) = (inject_Z (busy_bins pil_image) / 12)%Q /\
  0 <= busy_bins pil_image <= 12 /\
  breakdown !! "Color & Contrast"
  = Some (inject_Z (Z.max 0 (Z.min 100
            (Qfloor (lum_std pil_image * 180
                     + inject_Z (busy_bins pil_image) / 12 * 40))))).
Proof.
  unfold make_scores. rewrite analyze_image_colors_exact.
  destruct (analyze_typography BeautifulSoup html) as [ts tm].
  destruct (analyze_layout BeautifulSoup html) as [ls lm].
  destruct (analyze_responsive html) as [rs rm].
  destruct (analyze_accessibility BeautifulSoup html) as [acs am].
  destruct (weighted_sum _ _ _ _) as [total|]; [|discriminate].
  cbv beta iota delta [mbind option_bind]. intros H. injection H as _ <- <-.
  cbn [color contrast_sd hue_diversity].
  split; [reflexivity|]. split; [reflexivity|]. split.
  - unfold busy_bins, len.
    pose proof (filter_length_le
                  (fun i => 3 * Z.of_nat (length (hue pil_image))
                            <? 2000 * bin_count pil_image (Z.of_nat i)) (seq 0 12)) as Hl.
    rewrite length_seq in Hl. lia.
  - rewrite <- py_int_clamp. by simplify_map_eq.
Qed.

End ColorContrast.

(** C2, on the black image. *)
Lemma color_score_truncated_witness :
  exists (overall : Z) (breakdown : gmap string Q) (meta : Scoring.Meta),
    Scoring.make_scores Samples.empty_document Samples.black_image "" Scoring.WEIGHTS
    = Some (overall, breakdown, meta) /\
    Exact.busy_bins Samples.black_image = 1 /\
    breakdown !! "Color & Contrast" = Some (inject_Z 3).
Proof.
  eexists _, _, _. split; [vm_compute; reflexivity|].
  split; [vm_compute; reflexivity|].
  match goal with
  | |- ?b !! _ = _ =>
      destruct (color_score_truncated Samples.empty_document Samples.black_image ""
                  Scoring.WEIGHTS 32 b
                  {| Scoring.color := {| Scoring.contrast_sd := 0;
                                         Scoring.hue_diversity := 1 # 12 |};
                     Scoring.typography := {| Scoring.headings := 0; Scoring.has_h1 := false;
                                              Scoring.has_h2 := false |};
                     Scoring.layout := {| Scoring.grids := 0; Scoring.sections := 0;
                                          Scoring.paragraphs := 0 |};
                     Scoring.responsive := {| Scoring.viewport := false; Scoring.mq_classes := 0 |};
                     Scoring.accessibility := {| Scoring.imgs := 0; Scoring.with_alt := 0;
                                                 Scoring.aria_or_role := 0; Scoring.labels := 0 |} |}
                  ltac:(vm_compute; reflexivity)) as (_ & _ & _ & Hc)
  end.
  rewrite Hc. vm_compute. reflexivity.
Defined.

(** C2 as stated fails.  Ten pixels of hue 170 in an image of 10240 pixels
    are more than 0.05% of the pixels (5.12) but not more than 0.05% of the
    30720 array elements (15.36): the code sees one busy hue bin and
    returns 3, where the stated formula sees two and gives 7. *)
Lemma color_score_not_per_pixel :
  Scoring.arr_size Samples.speckled_image = 30720 /\
  Scoring.hue_bins Samples.speckled_image = [10230; 0; 0; 0; 0; 0; 0; 0; 10; 0; 0; 0] /\
  (snd (Scoring.analyze_image_colors Samples.speckled_image) == 1 # 12)%Q /\
  (Stated.diversity Samples.speckled_image == 2 # 12)%Q /\
  (exists (overall : Z) (breakdown : gmap string Q) (meta : Scoring.Meta),
      Scoring.make_scores Samples.empty_document Samples.speckled_image "" Scoring.WEIGHTS
      = Some (overall, breakdown, meta) /\
      breakdown !! "Color & Contrast" = Some (inject_Z 3)) /\
  Stated.color_score Samples.speckled_image = 7 /\
  3 <> Stated.color_score Samples.speckled_image.
Proof.
  split; [vm_compute; reflexivity|]. split; [vm_compute; reflexivity|].
  split; [vm_compute; reflexivity|]. split; [vm_compute; reflexivity|].
  split; [|split; vm_compute; [reflexivity | discriminate]].
  eexists _, _, _. split; vm_compute; reflexivity.
Qed.

(** ** Palette *)

Section PaletteFacts.
Import Palette Stated.

Lemma filter_comm {A : Type} (p q : A -> bool) (l : list A) :
  List.filter p (List.filter q l) = List.filter q (List.filter p l).
Proof.
  induction l as [|x l IH]; [reflexivity|]. simpl.
  destruct (p x) eqn:Ep, (q x) eqn:Eq; simpl; rewrite ?Ep, ?Eq, IH; reflexivity.
Qed.

Lemma filter_filter_implied {A : Type} (p q : A -> bool) (l : list A) :
  (forall x, p x = true -> q x = true) ->
  List.filter p (List.filter q l) = List.filter p l.
Proof.
  intros H. induction l as [|x l IH]; [reflexivity|]. simpl.
  destruct (q x) eqn:Eq; simpl.
  - rewrite IH. reflexivity.
  - destruct (p x) eqn:Ep; [|exact IH]. apply H in Ep. congruence.
Qed.

(** Filtering on the [hex] commutes with keeping first occurrences. *)
Lemma first_seen_filter (q : string -> bool) (l : list entry) :
  first_seen (List.filter (fun y => q (hex y)) l)
  = List.filter (fun y => q (hex y)) (first_seen l).
Proof.
  induction l as [|x l IH]; [reflexivity|]. simpl.
  destruct (q (hex x)) eqn:Eq; simpl.
  - rewrite IH. f_equal. apply filter_comm.
  - rewrite IH. symmetry. apply filter_filter_implied.
    intros y Hy. apply negb_true_iff, String.eqb_neq. intros E.
    rewrite E in Hy. congruence.
Qed.

Lemma filter_andb {A : Type} (p q : A -> bool) (l : list A) :
  List.filter (fun x => p x && q x) l = List.filter p (List.filter q l).
Proof.
  induction l as [|x l IH]; [reflexivity|]. simpl.
  destruct (q x) eqn:Eq; simpl.
  - rewrite andb_true_r. destruct (p x); rewrite IH; reflexivity.
  - rewrite andb_false_r. exact IH.
Qed.

Lemma unseen_union (h : string) (seen : gset string) (y : entry) :
  unseen ({[h]} ∪ seen) y = other_hex h y && unseen seen y.
Proof.
  unfold unseen, other_hex.
  destruct (String.eqb_spec (hex y) h) as [E|E]; simpl.
  - apply bool_decide_eq_false_2. intros Hn. apply Hn.
    apply elem_of_union_l, elem_of_singleton. exact E.
  - apply bool_decide_ext. rewrite not_elem_of_union, not_elem_of_singleton. tauto.
Qed.

Lemma unseen_insert (h : string) (seen : gset string) (l : list entry) :
  List.filter (unseen ({[h]} ∪ seen)) l
  = List.filter (other_hex h) (List.filter (unseen seen) l).
Proof.
  rewrite <- filter_andb. apply List.filter_ext. intros y. apply unseen_union.
Qed.

(** The merge loop appends the first occurrences of the unseen items. *)
Lemma merge_loop_first_seen (items : list entry) (seen : gset string) (out : list entry) :
  merge_loop items seen out = out ++ first_seen (List.filter (unseen seen) items).
Proof.
  revert seen out. induction items as [|item rest IH]; intros seen out.
  - simpl. rewrite app_nil_r. reflexivity.
  - simpl. unfold unseen at 1. case_bool_decide as Hin.
    + rewrite bool_decide_eq_false_2 by tauto. apply IH.
    + rewrite bool_decide_eq_true_2 by assumption. simpl.
      rewrite IH, <- app_assoc. simpl. do 2 f_equal.
      rewrite unseen_insert.
      apply (first_seen_filter (fun h' => negb (String.eqb h' (hex item)))).
Qed.

Lemma unseen_empty (l : list entry) : List.filter (unseen ∅) l = l.
Proof.
  induction l as [|y l IH]; [reflexivity|]. simpl.
  unfold unseen at 1. rewrite bool_decide_eq_true_2 by set_solver.
  f_equal. exact IH.
Qed.

Lemma filter_sublist {A : Type} (p : A -> bool) (l : list A) : sublist (List.filter p l) l.
Proof.
  induction l as [|x l IH]; [constructor|]. simpl.
  destruct (p x); [apply sublist_skip | apply sublist_cons]; exact IH.
Qed.

Lemma first_seen_sublist (l : list entry) : sublist (first_seen l) l.
Proof.
  induction l as [|x l IH]; [constructor|]. simpl. apply sublist_skip.
  etransitivity; [apply filter_sublist | exact IH].
Qed.

Lemma sublist_map {A B : Type} (f : A -> B) (l k : list A) :
  sublist l k -> sublist (List.map f l) (List.map f k).
Proof. induction 1; simpl; constructor; assumption. Qed.

Lemma first_seen_NoDup (l : list entry) : NoDup (List.map hex (first_seen l)).
Proof.
  induction l as [|x l IH]; simpl; constructor.
  - rewrite list_elem_of_In, in_map_iff. intros (y & Hy & Hin).
    apply filter_In in Hin. destruct Hin as [_ Hne].
    apply negb_true_iff, String.eqb_neq in Hne. congruence.
  - eapply sublist_NoDup; [exact IH | apply sublist_map, filter_sublist].
Qed.

Lemma take_sublist {A : Type} (n : nat) (l : list A) : sublist (firstn n l) l.
Proof. apply sublist_take. Qed.

Lemma first_seen_nil (l : list entry) : first_seen l = [] -> l = [].
Proof. destruct l; [reflexivity | discriminate]. Qed.

(** C7. For every image, [max_colors] and [min_percent], the palette has
    at most 28 entries and no [hex] twice; and either it is made of the
    first 28 first occurrences (by [hex]) of the dominant items followed by
    the saturated items followed by the edge items, in that order, or the
    three passes gave nothing and it is the single fallback entry. *)
Theorem extract_palette_bounded_unique_ordered
    (pil_image : raster) (max_colors : nat) (min_percent : Q) :
  let palette := extract_palette pil_image max_colors min_percent in
  let merged := dominant_pass pil_image max_colors min_percent
                ++ saturated_pass pil_image ++ edge_pass pil_image in
  (length palette <= 28)%nat /\
  NoDup (List.map hex palette) /\
  ((palette = firstn 28 (first_seen merged) /\ sublist palette merged) \/
   (merged = [] /\
    exists c, palette = [{| hex := _rgb_to_hex c; pct := 100; rgb := c |}])).
Proof.
  cbv zeta. unfold extract_palette.
  set (merged := dominant_pass pil_image max_colors min_percent
                 ++ saturated_pass pil_image ++ edge_pass pil_image).
  rewrite merge_loop_first_seen, unseen_empty. simpl app.
  split; [apply firstn_le_length|].
  destruct (first_seen merged) as [|e out] eqn:Efs.
  - apply first_seen_nil in Efs.
    destruct (Counter (quantized pil_image max_colors)) as [|[c n] cnt].
    + split; [constructor|]. left. rewrite Efs. split; [reflexivity | constructor].
    + split; [repeat constructor; set_solver|].
      right. split; [exact Efs|]. exists c. reflexivity.
  - rewrite <- Efs. split.
    + eapply sublist_NoDup; [apply (first_seen_NoDup merged)|].
      apply sublist_map, take_sublist.
    + left. split; [reflexivity|].
      etransitivity; [apply take_sublist | apply first_seen_sublist].
Qed.

Lemma counter_incr_head (k p : pixel) (n : Z) (c : counter) :
  exists n' c', counter_incr k ((p, n) :: c) = (p, n') :: c'.
Proof. simpl. case_bool_decide; eauto. Qed.

Lemma Counter_head_from (rest : list pixel) (p : pixel) (n : Z) (c : counter) :
  exists n' c', fold_left (fun c k => counter_incr k c) rest ((p, n) :: c) = (p, n') :: c'.
Proof.
  revert n c. induction rest as [|k rest IH]; intros n c; [simpl; eauto|].
  cbn [fold_left]. destruct (counter_incr_head k p n c) as (n' & c' & ->). apply IH.
Qed.

(** The first key of [Counter(pixels)] is the first pixel. *)
Lemma Counter_head (p : pixel) (rest : list pixel) :
  exists n c, Counter (p :: rest) = (p, n) :: c.
Proof. unfold Counter. cbn [fold_left counter_incr]. apply Counter_head_from. Qed.

(** C8 (as the code has it). When the image has a pixel and none of the
    three passes keeps a colour, the palette is exactly one entry at 100%:
    the first key of the counter, which is the colour of the first
    quantised pixel in raster order. *)
Theorem extract_palette_fallback_first_pixel
    (pil_image : raster) (max_colors : nat) (min_percent : Q)
    (first : pixel) (rest : list pixel) :
  quantized pil_image max_colors = first :: rest ->
  dominant_pass pil_image max_colors min_percent = [] ->
  saturated_pass pil_image = [] ->
  edge_pass pil_image = [] ->
  extract_palette pil_image max_colors min_percent
  = [{| hex := _rgb_to_hex first; pct := 100; rgb := first |}].
Proof.
  intros Hpix Hdom Hsat Hedge. unfold extract_palette.
  rewrite Hdom, Hsat, Hedge, Hpix. cbn [app merge_loop].
  destruct (Counter_head first rest) as (n & c & ->). reflexivity.
Qed.

End PaletteFacts.

(** A palette merged from the three passes: the dominant white, black and
    red, then the one saturated colour not seen yet, then the one edge
    colour not seen yet. *)
Example extract_palette_logo :
  List.map Palette.hex (Palette.extract_palette Samples.logo_raster 16 0.5)
  = ["#FFFFFF"; "#000000"; "#FF0000"; "#C80A0A"; "#0000FF"].
Proof. vm_compute. reflexivity. Qed.

(** C8, on one black pixel followed by two white ones with a threshold of
    70%. *)
Lemma extract_palette_fallback_first_pixel_witness :
  Palette.extract_palette Samples.grey_raster 16 70
  = [{| Palette.hex := "#000000"; Palette.pct := 100; Palette.rgb := (0, 0, 0) |}].
Proof.
  apply (extract_palette_fallback_first_pixel Samples.grey_raster 16 70
           (0, 0, 0) [(255, 255, 255); (255, 255, 255)]);
    vm_compute; reflexivity.
Defined.

(** C8 as stated fails.  With one black pixel followed by two white ones
    and a threshold of 70% no pass keeps a colour; white is the most
    frequent colour, and the palette is the black of the first pixel. *)
Lemma extract_palette_fallback_not_most_frequent :
  Palette.dominant_pass Samples.grey_raster 16 70 = [] /\
  Palette.saturated_pass Samples.grey_raster = [] /\
  Palette.edge_pass Samples.grey_raster = [] /\
  Palette.most_common 1 (Palette.Counter (Palette.quantized Samples.grey_raster 16))
  = [((255, 255, 255), 2)] /\
  Stated.fallback (Palette.Counter (Palette.quantized Samples.grey_raster 16))
  = [{| Palette.hex := "#FFFFFF"; Palette.pct := 100; Palette.rgb := (255, 255, 255) |}] /\
  Palette.extract_palette Samples.grey_raster 16 70
  = [{| Palette.hex := "#000000"; Palette.pct := 100; Palette.rgb := (0, 0, 0) |}] /\
  Palette.extract_palette Samples.grey_raster 16 70
  <> Stated.fallback (Palette.Counter (Palette.quantized Samples.grey_raster 16)).
Proof. repeat split; vm_compute; first [reflexivity | discriminate]. Qed.

(** ** Report: slicing the screenshot over pages *)

Section Slicing.
Import Report.

Lemma Qle_bool_false (a b : Q) : (b < a)%Q -> Qle_bool a b = false.
Proof.
  intros H. destruct (Qle_bool a b) eqn:E; [|reflexivity].
  apply Qle_bool_iff in E. lra.
Qed.

Variables (img_w img_h : Z) (top_free_px : Q) (first_page : bool).

Local Notation "'loop'" := (slice_loop img_w img_h top_free_px first_page).
Local Notation "'s_px'" := (slice_h_px img_w top_free_px first_page).
Local Notation "'slice_at'" := (slice_image img_w img_h top_free_px first_page).

Lemma slice_loop_step (fuel : nat) (y_px : Z) (first : bool) (c : canvas) :
  y_px < img_h ->
  loop (S fuel) y_px first c
  = loop fuel (y_px + Z.min s_px (img_h - y_px)) false
      (c ++ (if first then [] else [ShowPage; Header report_title ""])
         ++ [slice_at y_px first]).
Proof.
  intros H. cbn [slice_loop]. apply Z.ltb_lt in H. rewrite H.
  destruct first; reflexivity.
Qed.

Lemma slice_loop_done (fuel : nat) (y_px : Z) (first : bool) (c : canvas) :
  img_h <= y_px -> loop fuel y_px first c = Some c.
Proof.
  intros H. apply Z.ltb_ge in H. destruct fuel; cbn [slice_loop]; rewrite H; reflexivity.
Qed.

Lemma slice_h_px_pos : 1 <= s_px.
Proof. unfold slice_h_px. lia. Qed.

End Slicing.

Section ThreePagesTall.
Import Report.

Lemma usable_w_value : (usable_w == 65520 # 127)%Q.
Proof. vm_compute. reflexivity. Qed.

Lemma usable_h_value : (usable_h == 96840 # 127)%Q.
Proof. vm_compute. reflexivity. Qed.

Lemma top_used_value : (top_used == 9656 # 127)%Q.
Proof. vm_compute. reflexivity. Qed.

Variables (img_w img_h : Z).
Hypothesis img_w_pos : 0 < img_w.
Hypothesis tall : Stated.three_pages_tall img_w img_h.

Lemma aspect_ratio : 182 * img_h = 807 * img_w.
Proof.
  unfold Stated.three_pages_tall, scaled_h, scale in tall.
  rewrite usable_w_value, usable_h_value in tall.
  destruct img_w as [|p|p]; try lia.
  unfold Qeq, Qmult, Qdiv, Qinv, inject_Z in tall. simpl in tall. lia.
Qed.

Lemma scale_value : (scale img_w == (65520 # 127) / inject_Z img_w)%Q.
Proof. unfold scale. rewrite usable_w_value. reflexivity. Qed.

Lemma slice_h_px_value :
  slice_h_px img_w top_used true = (87184 * img_w) / 65520.
Proof.
  unfold slice_h_px, slice_h_pts, first_page_room.
  assert (Hroom : (usable_h - top_used == 87184 # 127)%Q)
    by (rewrite usable_h_value, top_used_value; reflexivity).
  assert (Hq : (Qmax 1 (usable_h - top_used) / scale img_w
                == (87184 * img_w) # 65520)%Q).
  { rewrite Q.max_r by (rewrite Hroom; discriminate).
    rewrite Hroom, scale_value.
    destruct img_w as [|p|p]; try lia.
    unfold Qeq, Qmult, Qdiv, Qinv, inject_Z. simpl. lia. }
  rewrite (py_int_proper _ _ Hq).
  rewrite py_int_nonneg_floor by (unfold Qle; simpl; lia).
  change (Qfloor ((87184 * img_w) # 65520)) with ((87184 * img_w) / 65520).
  pose proof aspect_ratio.
  pose proof (Z.div_mod (87184 * img_w) 65520 ltac:(lia)).
  pose proof (Z.mod_pos_bound (87184 * img_w) 65520 ltac:(lia)).
  lia.
Qed.

Lemma slice_bounds :
  let s := slice_h_px img_w top_used true in
  1 <= s /\ 3 * s < img_h /\ img_h <= 4 * s.
Proof.
  cbv zeta. rewrite slice_h_px_value.
  pose proof aspect_ratio.
  pose proof (Z.div_mod (87184 * img_w) 65520 ltac:(lia)).
  pose proof (Z.mod_pos_bound (87184 * img_w) 65520 ltac:(lia)).
  lia.
Qed.

Lemma does_not_fit :
  Qle_bool (scaled_h img_w img_h) (first_page_room top_used true + 0.1) = false.
Proof.
  apply Qle_bool_false. unfold Stated.three_pages_tall in tall. rewrite tall.
  unfold first_page_room. rewrite usable_h_value, top_used_value. reflexivity.
Qed.

(** The four slices of the screenshot, on four pages. *)
Lemma sliced_in_four (c : canvas) :
  let s := slice_h_px img_w top_used true in
  _draw_screenshot_sliced img_w img_h top_used true c
  = Some (c ++ [slice_image img_w img_h top_used true 0 true;
                ShowPage; Header report_title "";
                slice_image img_w img_h top_used true s false;
                ShowPage; Header report_title "";
                slice_image img_w img_h top_used true (s + s) false;
                ShowPage; Header report_title "";
                slice_image img_w img_h top_used true (s + s + s) false]).
Proof.
  cbv zeta. destruct slice_bounds as (Hs1 & Hs3 & Hs4).
  set (s := slice_h_px img_w top_used true) in *.
  unfold _draw_screenshot_sliced. rewrite does_not_fit.
  assert (Hfuel : exists n, Z.to_nat img_h = S (S (S (S n)))).
  { exists (Z.to_nat img_h - 4)%nat. lia. }
  destruct Hfuel as [n ->].
  rewrite slice_loop_step by lia. fold s.
  rewrite (Z.min_l s (img_h - 0)) by lia.
  rewrite slice_loop_step by lia. fold s.
  rewrite (Z.min_l s (img_h - (0 + s))) by lia.
  rewrite slice_loop_step by lia. fold s.
  rewrite (Z.min_l s (img_h - (0 + s + s))) by lia.
  rewrite slice_loop_step by lia. fold s.
  rewrite slice_loop_done by lia.
  rewrite <- !app_assoc. reflexivity.
Qed.

End ThreePagesTall.




(** * Further properties of the code *)

(** ** Labels *)

Section Labels.
Import App.

(** The threshold of the label of a non-negative score is the largest
    threshold of the table that the score reaches. *)
Theorem label_for_largest_threshold (score : Z) :
  0 <= score ->
  exists th : Z,
    In (th, label_for score) LABELS /\ th <= score /\
    forall th' lab', In (th', lab') LABELS -> th' <= score -> th' <= th.
Proof.
  intros H0. unfold label_for, LABELS. cbn [first_label].
  destruct (Z.leb_spec 90 score); [exists 90; split; [simpl; tauto|]; split; [lia|];
    intros th' lab' Hin _; simpl in Hin;
    repeat (destruct Hin as [Hin|Hin]; [injection Hin as <- _; lia|]); contradiction|].
  destruct (Z.leb_spec 80 score); [exists 80; split; [simpl; tauto|]; split; [lia|];
    intros th' lab' Hin Hle; simpl in Hin;
    repeat (destruct Hin as [Hin|Hin]; [injection Hin as <- _; lia|]); contradiction|].
  destruct (Z.leb_spec 70 score); [exists 70; split; [simpl; tauto|]; split; [lia|];
    intros th' lab' Hin Hle; simpl in Hin;
    repeat (destruct Hin as [Hin|Hin]; [injection Hin as <- _; lia|]); contradiction|].
  destruct (Z.leb_spec 60 score); [exists 60; split; [simpl; tauto|]; split; [lia|];
    intros th' lab' Hin Hle; simpl in Hin;
    repeat (destruct Hin as [Hin|Hin]; [injection Hin as <- _; lia|]); contradiction|].
  destruct (Z.leb_spec 0 score); [|lia].
  exists 0; split; [simpl; tauto|]; split; [lia|].
  intros th' lab' Hin Hle; simpl in Hin;
    repeat (destruct Hin as [Hin|Hin]; [injection Hin as <- _; lia|]); contradiction.
Qed.

(** Below every threshold the loop ends without a label and the function
    falls back on the lowest one. *)
Lemma label_for_negative (score : Z) :
  score < 0 -> first_label score LABELS = None /\ label_for score = "Needs work".
Proof.
  intros H. unfold label_for, LABELS. cbn [first_label].
  repeat match goal with |- context [Z.leb ?a score] =>
    destruct (Z.leb_spec a score); [lia|] end.
  split; reflexivity.
Qed.

End Labels.

Lemma label_for_largest_threshold_witness :
  exists th : Z, In (th, App.label_for 85) App.LABELS /\ th <= 85.
Proof.
  destruct (label_for_largest_threshold 85) as (th & Hin & Hle & _).
  - lia.
  - exists th. split; assumption.
Defined.

(** ** [make_scores]: missing weights, floors, and what follows it *)

Section MakeScores.
Import Scoring.

Variable BeautifulSoup : string -> soup.

Lemma weighted_sum_missing (breakdown weights : gmap string Q) (keys : list string)
    (acc : Q) (k : string) :
  In k keys -> weights !! k = None -> weighted_sum breakdown weights keys acc = None.
Proof.
  revert acc. induction keys as [|k' keys IH]; intros acc Hin Hk; [contradiction|].
  cbn [weighted_sum]. destruct Hin as [->|Hin].
  - rewrite Hk. destruct (breakdown !! k); reflexivity.
  - destruct (breakdown !! k') as [b|]; [|reflexivity].
    destruct (weights !! k') as [w|]; [|reflexivity].
    cbn. apply IH; assumption.
Qed.

Lemma weighted_sum_present (breakdown weights : gmap string Q) (keys : list string)
    (acc : Q) :
  (forall k, In k keys -> is_Some (breakdown !! k)) ->
  (forall k, In k keys -> is_Some (weights !! k)) ->
  is_Some (weighted_sum breakdown weights keys acc).
Proof.
  revert acc. induction keys as [|k' keys IH]; intros acc Hb Hw; [cbn; eauto|].
  cbn [weighted_sum].
  destruct (Hb k' (or_introl eq_refl)) as [b ->].
  destruct (Hw k' (or_introl eq_refl)) as [w ->]. cbn.
  apply IH; intros k Hk; [apply Hb | apply Hw]; right; assumption.
Qed.

(** The breakdown built by [make_scores]. *)
Lemma breakdown_has_keys (t c l r a : Q) (k : string) :
  In k breakdown_keys ->
  is_Some ((<["Accessibility" := a]>
              (<["Responsive" := r]>
                 (<["Layout & Structure" := l]>
                    (<["Color & Contrast" := c]>
                       (<["Typography" := t]> (∅ : gmap string Q)))))) !! k).
Proof.
  unfold breakdown_keys. simpl.
  intros [<-|[<-|[<-|[<-|[<-|[]]]]]]; simplify_map_eq; eauto.
Qed.

(** [make_scores] fails exactly when one of the five category keys is
    missing from the weights: the lookup [weights[k]] raises. *)
Theorem make_scores_fails_iff_weight_missing
    (pil_image : sampled_image) (html : string) (weights : gmap string Q) :
  make_scores BeautifulSoup pil_image html weights = None
  <-> exists k, In k breakdown_keys /\ weights !! k = None.
Proof.
  unfold make_scores.
  destruct (analyze_image_colors pil_image) as [contrast diversity].
  destruct (analyze_typography BeautifulSoup html) as [ts tm].
  destruct (analyze_layout BeautifulSoup html) as [ls lm].
  destruct (analyze_responsive html) as [rs rm].
  destruct (analyze_accessibility BeautifulSoup html) as [acs am].
  set (bd := <["Accessibility" := inject_Z acs]> _).
  split.
  - intros Hnone.
    destruct (decide (Forall (fun k => is_Some (weights !! k)) breakdown_keys)) as [Hall|Hnot].
    + exfalso. rewrite Forall_forall in Hall.
      destruct (weighted_sum_present bd weights breakdown_keys 0) as [total Ht].
      * intros k Hk. apply breakdown_has_keys. assumption.
      * intros k Hk. apply Hall. apply list_elem_of_In. assumption.
      * rewrite Ht in Hnone. discriminate.
    + apply not_Forall_Exists in Hnot; [|intros k; apply _].
      apply Exists_exists in Hnot. destruct Hnot as (k & Hk & Hn).
      exists k. split; [apply list_elem_of_In; assumption|].
      destruct (weights !! k) eqn:E; [|reflexivity].
      exfalso. apply Hn. rewrite E. eauto.
  - intros (k & Hk & Hn).
    rewrite (weighted_sum_missing bd weights breakdown_keys 0 k Hk Hn). reflexivity.
Qed.

End MakeScores.

Section Floors.
Import Scoring.

Variable BeautifulSoup : string -> soup.

Lemma len_nonneg {A : Type} (l : list A) : 0 <= len l.
Proof. unfold len. lia. Qed.

Lemma inject_Z_nonneg (z : Z) : 0 <= z -> (0 <= inject_Z z)%Q.
Proof. intros H. change 0%Q with (inject_Z 0). rewrite <- Zle_Qle. assumption. Qed.

Lemma analyze_typography_floor (html : string) :
  (40 <= fst (analyze_typography BeautifulSoup html))%Q.
Proof.
  unfold analyze_typography. cbn [fst].
  set (hd := len _). set (sz := len (find_all_by sel_inline_size _)).
  assert (H1 : (0 <= Qmin 20 (inject_Z (hd * 3)))%Q).
  { apply Q.min_glb; [discriminate|]. apply inject_Z_nonneg.
    pose proof (len_nonneg (find_all_by (fun n => is_heading_name (name_of n))
                              (BeautifulSoup html))). fold hd in H. lia. }
  assert (H2 : (0 <= Qmin 20 (inject_Z sz * 0.5))%Q).
  { apply Q.min_glb; [discriminate|].
    pose proof (inject_Z_nonneg sz (len_nonneg _)). lra. }
  eapply Qle_trans; [|apply Q.le_max_r].
  apply Q.min_glb; [discriminate|].
  destruct (find_name "h1" _), (find_name "h2" _); lra.
Qed.

Lemma analyze_layout_floor (html : string) :
  40 <= fst (analyze_layout BeautifulSoup html).
Proof.
  unfold analyze_layout. cbn [fst].
  pose proof (len_nonneg (find_all_by sel_grid_flex (BeautifulSoup html))).
  pose proof (len_nonneg (find_all_by is_section (BeautifulSoup html))).
  lia.
Qed.

Lemma analyze_responsive_floor (html : string) :
  (40 <= fst (analyze_responsive html))%Q.
Proof.
  unfold analyze_responsive. cbn [fst].
  set (k := Z.of_nat _ + Z.of_nat _).
  assert (H2 : (0 <= Qmin 35 (inject_Z k * 0.5))%Q).
  { apply Q.min_glb; [discriminate|].
    assert (0 <= k) by (unfold k; lia).
    pose proof (inject_Z_nonneg k ltac:(assumption)). lra. }
  eapply Qle_trans; [|apply Q.le_max_r].
  apply Q.min_glb; [discriminate|].
  destruct (Str.contains "viewport" _); lra.
Qed.

Lemma analyze_accessibility_floor (html : string) :
  40 <= fst (analyze_accessibility BeautifulSoup html).
Proof.
  unfold analyze_accessibility. cbn [fst].
  set (alts := find_all_name "img" (BeautifulSoup html)).
  set (w := len (List.filter (get_truthy "alt") alts)).
  set (b := len _ + len _).
  assert (Hb : 0 <= b) by (unfold b, len; lia).
  assert (Hq : (0 <= inject_Z w / inject_Z (Z.max 1 (len alts)) * 30)%Q).
  { assert (Hm : 0 < Z.max 1 (len alts)) by lia.
    destruct (Z.max 1 (len alts)) as [|p|p]; try lia.
    assert (0 <= w) by apply len_nonneg.
    unfold Qle, Qdiv, Qmult, Qinv, inject_Z. simpl. lia. }
  assert (Hx : (40 <= 40 + Qmin 30 (inject_Z w / inject_Z (Z.max 1 (len alts)) * 30)
                      + inject_Z (Z.min 30 b))%Q).
  { assert ((0 <= Qmin 30 (inject_Z w / inject_Z (Z.max 1 (len alts)) * 30))%Q)
      by (apply Q.min_glb; [discriminate | assumption]).
    pose proof (inject_Z_nonneg (Z.min 30 b) ltac:(lia)). lra. }
  rewrite py_int_nonneg_floor by lra.
  assert (40 <= Qfloor (40 + Qmin 30 (inject_Z w / inject_Z (Z.max 1 (len alts)) * 30)
                        + inject_Z (Z.min 30 b))).
  { change 40 with (Qfloor 40). apply Qfloor_resp_le. exact Hx. }
  lia.
Qed.

(** On every page and every image the four HTML sub-scores are at least
    40, so with the weights that [analyze] passes the overall score is
    between 31 and 100 and [make_scores] never fails. *)
Theorem make_scores_app_weights_range (pil_image : sampled_image) (html : string) :
  exists (overall : Z) (breakdown : gmap string Q) (meta : Meta),
    make_scores BeautifulSoup pil_image html App.WEIGHTS = Some (overall, breakdown, meta) /\
    31 <= overall <= 100.
Proof.
  unfold make_scores.
  destruct (analyze_image_colors pil_image) as [contrast diversity].
  pose proof (analyze_typography_floor html) as Ft.
  pose proof (analyze_layout_floor html) as Fl.
  pose proof (analyze_responsive_floor html) as Fr.
  pose proof (analyze_accessibility_floor html) as Fa.
  pose proof (analyze_typography_range BeautifulSoup html) as Rt.
  pose proof (analyze_layout_range BeautifulSoup html) as Rl.
  pose proof (analyze_responsive_range html) as Rr.
  pose proof (analyze_accessibility_range BeautifulSoup html) as Ra.
  pose proof (color_score_range (contrast * 180 + diversity * 40)) as Rc.
  destruct (analyze_typography BeautifulSoup html) as [ts tm].
  destruct (analyze_layout BeautifulSoup html) as [ls lm].
  destruct (analyze_responsive html) as [rs rm].
  destruct (analyze_accessibility BeautifulSoup html) as [acs am].
  cbn [fst] in *.
  set (cs := py_int (Qmin 100 (Qmax 0 (contrast * 180 + diversity * 40)))) in *.
  set (bd := <["Accessibility" := inject_Z acs]> _).
  assert (Ht : bd !! "Typography" = Some ts) by (subst bd; by simplify_map_eq).
  assert (Hc : bd !! "Color & Contrast" = Some (inject_Z cs)) by (subst bd; by simplify_map_eq).
  assert (Hl : bd !! "Layout & Structure" = Some (inject_Z ls)) by (subst bd; by simplify_map_eq).
  assert (Hr : bd !! "Responsive" = Some rs) by (subst bd; by simplify_map_eq).
  assert (Ha : bd !! "Accessibility" = Some (inject_Z acs)) by (subst bd; by simplify_map_eq).
  rewrite (weighted_sum_five bd App.WEIGHTS ts (inject_Z cs) (inject_Z ls) rs (inject_Z acs)
             0.22 0.22 0.22 0.18 0.16 Ht Hc Hl Hr Ha
             eq_refl eq_refl eq_refl eq_refl eq_refl).
  cbv beta iota delta [mbind option_bind].
  eexists _, bd, _. split; [reflexivity|].
  apply inject_Z_range in Rc, Rl, Ra.
  assert (Fl' : (40 <= inject_Z ls)%Q) by (change 40%Q with (inject_Z 40); rewrite <- Zle_Qle; lia).
  assert (Fa' : (40 <= inject_Z acs)%Q) by (change 40%Q with (inject_Z 40); rewrite <- Zle_Qle; lia).
  set (total := (0 + ts * 0.22 + inject_Z cs * 0.22 + inject_Z ls * 0.22 + rs * 0.18
                 + inject_Z acs * 0.16)%Q).
  assert (Hlo : (31 <= total)%Q) by (unfold total; lra).
  assert (Hhi : (total <= 100)%Q) by (unfold total; lra).
  rewrite py_int_nonneg_floor by lra. split.
  - change 31 with (Qfloor 31). apply Qfloor_resp_le. exact Hlo.
  - change 100 with (Qfloor 100). apply Qfloor_resp_le. exact Hhi.
Qed.

Lemma append_if_below_length (s lim : Q) (tip : string) (tips : list string) :
  (length tips <= length (append_if_below s lim tip tips) <= S (length tips))%nat.
Proof.
  unfold append_if_below. destruct (Qltb s lim); [rewrite length_app; simpl|]; lia.
Qed.

(** Whatever [make_scores] returns can be handed to [recommendations]:
    the five keys it looks up are there, and it answers with between one
    and five tips. *)
Theorem recommendations_after_make_scores
    (pil_image : sampled_image) (html : string) (weights : gmap string Q)
    (overall : Z) (breakdown : gmap string Q) (meta : Meta) :
  make_scores BeautifulSoup pil_image html weights = Some (overall, breakdown, meta) ->
  exists tips : list string,
    recommendations breakdown meta = Some tips /\
    (1 <= length tips <= 5)%nat.
Proof.
  unfold make_scores.
  destruct (analyze_image_colors pil_image) as [contrast diversity].
  destruct (analyze_typography BeautifulSoup html) as [ts tm].
  destruct (analyze_layout BeautifulSoup html) as [ls lm].
  destruct (analyze_responsive html) as [rs rm].
  destruct (analyze_accessibility BeautifulSoup html) as [acs am].
  destruct (weighted_sum _ _ _ _) as [total|]; [|discriminate].
  cbv beta iota delta [mbind option_bind]. intros H. injection H as _ <- <-.
  erewrite recommendations_unfold by (by simplify_map_eq).
  eexists. split; [reflexivity|].
  set (t1 := append_if_below ts 80 tip_typography []).
  set (t2 := append_if_below _ 80 tip_layout t1).
  set (t3 := append_if_below _ 80 tip_color t2).
  set (t4 := append_if_below rs 90 tip_responsive t3).
  set (t5 := append_if_below _ 85 tip_accessibility t4).
  pose proof (append_if_below_length ts 80 tip_typography []) as L1. fold t1 in L1.
  pose proof (append_if_below_length
                (inject_Z (py_int (Qmin 100 (Qmax 0 (contrast * 180 + diversity * 40)))))
                80 tip_color t2) as L3.
  pose proof (append_if_below_length (inject_Z ls) 80 tip_layout t1) as L2.
  pose proof (append_if_below_length rs 90 tip_responsive t3) as L4.
  pose proof (append_if_below_length (inject_Z acs) 85 tip_accessibility t4) as L5.
  fold t2 in L2, L3. fold t3 in L3, L4. fold t4 in L4, L5. fold t5 in L5.
  simpl in L1.
  destruct t5 as [|x t5']; simpl in *; lia.
Qed.

End Floors.

Lemma recommendations_after_make_scores_witness :
  exists (overall : Z) (breakdown : gmap string Q) (meta : Scoring.Meta) (tips : list string),
    Scoring.make_scores Samples.empty_document Samples.black_image "" Scoring.WEIGHTS
    = Some (overall, breakdown, meta) /\
    Scoring.recommendations breakdown meta = Some tips /\
    (1 <= length tips <= 5)%nat.
Proof.
  destruct (Scoring.make_scores Samples.empty_document Samples.black_image ""
              Scoring.WEIGHTS) as [[[o b] m]|] eqn:E; [|vm_compute in E; discriminate].
  destruct (recommendations_after_make_scores Samples.empty_document Samples.black_image ""
              Scoring.WEIGHTS o b m E) as (tips & Ht & Hl).
  exists o, b, m, tips. split; [reflexivity|]. split; assumption.
Defined.

(** ** The hue histogram *)

Section HueHistogram.
Import Scoring Exact.

Lemma hue_bin_bounds (h : Z) : 0 <= h <= 255 -> 0 <= hue_bin h < 12.
Proof.
  intros Hh. unfold hue_bin. destruct (Z.eqb_spec h 255); [lia|].
  pose proof (Z.div_mod (h * 12) 255 ltac:(lia)).
  pose proof (Z.mod_pos_bound (h * 12) 255 ltac:(lia)). lia.
Qed.

Lemma in_bin_hue_bin (i : nat) (h : Z) :
  (i < 12)%nat -> 0 <= h <= 255 -> in_bin (Z.of_nat i) h = (hue_bin h =? Z.of_nat i).
Proof.
  intros Hi Hh. rewrite <- (hue_bin_in_bin i h Hi). unfold in_range.
  destruct (Z.leb_spec 0 h); [|lia]. destruct (Z.leb_spec h 255); [|lia]. reflexivity.
Qed.

Lemma bin_count_cons (lum : Q) (h : Z) (l : list Z) (i : Z) :
  bin_count {| lum_std := lum; hue := h :: l |} i
  = (if in_bin i h then 1 else 0) + bin_count {| lum_std := lum; hue := l |} i.
Proof.
  unfold bin_count, len. cbn [hue List.filter].
  destruct (in_bin i h); cbn [length]; lia.
Qed.

(** Every hue byte is counted by exactly one of the twelve bins. *)
Lemma binned_all (lum : Q) (l : list Z) :
  Forall (fun h => 0 <= h <= 255) l ->
  binned {| lum_std := lum; hue := l |} = len l.
Proof.
  induction 1 as [|h l Hh _ IH]; [reflexivity|].
  unfold binned in *. cbn [seq List.map fold_right] in *.
  rewrite !bin_count_cons.
  rewrite !(in_bin_hue_bin _ h) by (assumption || lia).
  pose proof (hue_bin_bounds h Hh) as Hb.
  unfold len in *. cbn [length]. rewrite (Nat2Z.inj_succ (length l)).
  change (Z.of_nat 0) with 0 in *. change (Z.of_nat 1) with 1 in *.
  change (Z.of_nat 2) with 2 in *. change (Z.of_nat 3) with 3 in *.
  change (Z.of_nat 4) with 4 in *. change (Z.of_nat 5) with 5 in *.
  change (Z.of_nat 6) with 6 in *. change (Z.of_nat 7) with 7 in *.
  change (Z.of_nat 8) with 8 in *. change (Z.of_nat 9) with 9 in *.
  change (Z.of_nat 10) with 10 in *. change (Z.of_nat 11) with 11 in *.
  destruct (Z.eqb_spec (hue_bin h) 0), (Z.eqb_spec (hue_bin h) 1),
    (Z.eqb_spec (hue_bin h) 2), (Z.eqb_spec (hue_bin h) 3); try lia;
  destruct (Z.eqb_spec (hue_bin h) 4), (Z.eqb_spec (hue_bin h) 5),
    (Z.eqb_spec (hue_bin h) 6), (Z.eqb_spec (hue_bin h) 7); try lia;
  destruct (Z.eqb_spec (hue_bin h) 8), (Z.eqb_spec (hue_bin h) 9),
    (Z.eqb_spec (hue_bin h) 10), (Z.eqb_spec (hue_bin h) 11); lia.
Qed.

Lemma filter_nil_all {A : Type} (f : A -> bool) (l : list A) :
  List.filter f l = [] -> forall x, In x l -> f x = false.
Proof.
  induction l as [|y l IH]; intros Hf x Hin; [contradiction|].
  simpl in Hf. destruct (f y) eqn:Ey; [discriminate|].
  destruct Hin as [<-|Hin]; [assumption | apply IH; assumption].
Qed.

(** The diversity signal is never below 1/12 for an image that has a
    pixel: some hue bin holds at least a twelfth of the pixels, far more
    than the threshold.  With a luminance spread that is not negative the
    Color & Contrast score [int(min(100, max(0, contrast*180 +
    diversity*40)))] is therefore at least 3. *)
Theorem color_score_at_least_three (img : sampled_image) :
  hue img <> [] ->
  Forall (fun h => 0 <= h <= 255) (hue img) ->
  (0 <= lum_std img)%Q ->
  let '(contrast, diversity) := analyze_image_colors img in
  (1 # 12 <= diversity <= 1)%Q /\
  3 <= py_int (Qmin 100 (Qmax 0 (contrast * 180 + diversity * 40))) <= 100.
Proof.
  intros Hne Hrange Hlum. rewrite analyze_image_colors_exact.
  assert (Hbusy : 1 <= busy_bins img <= 12).
  { split.
    - unfold busy_bins.
      destruct (List.filter _ (seq 0 12)) as [|i rest] eqn:Ef; [|unfold len; simpl; lia].
      exfalso. pose proof (filter_nil_all _ _ Ef) as Hall.
      destruct img as [lum l]. cbn [hue] in *.
      pose proof (binned_all lum l Hrange) as Hsum.
      unfold binned in Hsum. cbn [seq List.map fold_right] in Hsum.
      assert (Hn : 0 < len l) by (destruct l; [contradiction | unfold len; simpl; lia]).
      pose proof (Hall 0%nat ltac:(simpl; tauto)) as H0.
      pose proof (Hall 1%nat ltac:(simpl; tauto)) as H1.
      pose proof (Hall 2%nat ltac:(simpl; tauto)) as H2.
      pose proof (Hall 3%nat ltac:(simpl; tauto)) as H3.
      pose proof (Hall 4%nat ltac:(simpl; tauto)) as H4.
      pose proof (Hall 5%nat ltac:(simpl; tauto)) as H5.
      pose proof (Hall 6%nat ltac:(simpl; tauto)) as H6.
      pose proof (Hall 7%nat ltac:(simpl; tauto)) as H7.
      pose proof (Hall 8%nat ltac:(simpl; tauto)) as H8.
      pose proof (Hall 9%nat ltac:(simpl; tauto)) as H9.
      pose proof (Hall 10%nat ltac:(simpl; tauto)) as H10.
      pose proof (Hall 11%nat ltac:(simpl; tauto)) as H11.
      cbv beta in *. rewrite Z.ltb_ge in H0, H1, H2, H3, H4, H5, H6, H7, H8, H9, H10, H11.
      lia.
    - unfold busy_bins, len.
      pose proof (filter_length_le
                    (fun i => 3 * Z.of_nat (length (hue img))
                              <? 2000 * bin_count img (Z.of_nat i)) (seq 0 12)) as Hl.
      rewrite length_seq in Hl. lia. }
  destruct Hbusy as [Hb1 Hb12].
  set (k := busy_bins img) in *.
  assert (Hk1 : (1 <= inject_Z k)%Q) by (change 1%Q with (inject_Z 1); rewrite <- Zle_Qle; lia).
  assert (Hk12 : (inject_Z k <= 12)%Q) by (change 12%Q with (inject_Z 12); rewrite <- Zle_Qle; lia).
  assert (Hd : (1 # 12 <= inject_Z k / 12 <= 1)%Q).
  { split.
    - apply Qle_shift_div_l; [reflexivity|]. lra.
    - apply Qle_shift_div_r; [reflexivity|]. lra. }
  split; [exact Hd|].
  rewrite py_int_clamp.
  assert (3 <= Qfloor (lum_std img * 180 + inject_Z k / 12 * 40)).
  { change 3 with (Qfloor 3). apply Qfloor_resp_le. lra. }
  lia.
Qed.

End HueHistogram.

Lemma color_score_at_least_three_witness :
  let '(contrast, diversity) := Scoring.analyze_image_colors Samples.black_image in
  (1 # 12 <= diversity <= 1)%Q /\
  3 <= py_int (Qmin 100 (Qmax 0 (contrast * 180 + diversity * 40))) <= 100.
Proof.
  apply (color_score_at_least_three Samples.black_image).
  - discriminate.
  - apply Forall_forall. intros h Hin. apply list_elem_of_In, repeat_spec in Hin. lia.
  - discriminate.
Defined.
